(** * daily_fetch.py: the daily paper-feed pipeline

    A shallow embedding of [daily_fetch.py]: load the persisted JSON
    collection, fetch the recent arXiv entries, filter them (time cutoff,
    known ids, target categories), enrich each one through the chat service,
    build the persisted record, and write [new ++ old] back.

    Conventions.
    - Python [str] values are [string]s holding their UTF-8 bytes (so
      only text that UTF-8 can encode); the separators the script splits
      on (['/'], ['.']) and the newline it replaces are ASCII, so
      byte-wise and code-point-wise agree.
    - Values that go through [json.load] / [json.dump] are [json] trees;
      a Python [dict] is an association list in insertion order.
    - A call that may raise returns a [result]; the exceptions carry the
      class that [except Exception] tests.
    - Everything the script obtains from outside (the file, the clock, the
      arXiv result generator, the chat service, [random.choice]) is a field
      of a [World]; [print] and [time.sleep] have no effect on the values
      and are left out. *)

From Stdlib Require Import List String Ascii ZArith Lia Bool Arith.
Import ListNotations.
Local Open Scope string_scope.
Local Open Scope Z_scope.

Set Warnings "-register-all".

(** ** Exceptions and fallible computations *)

Module Py.

(** The exception classes the script can meet.  [BaseOnly] stands for the
    classes that derive from [BaseException] but not from [Exception]
    ([KeyboardInterrupt], [SystemExit]): a bare [except:] catches them,
    [except Exception] does not. *)
Inductive exn : Type :=
| KeyError (key : string)
| TypeError
| IndexError
| AttributeError
| ValueError
| OtherException (name : string)
| BaseOnly (name : string).

Definition is_Exception (e : exn) : bool :=
  match e with
  | BaseOnly _ => false
  | _ => true
  end.

Inductive result (A : Type) : Type :=
| Ok (a : A)
| Raise (e : exn).

Arguments Ok {A} a.
Arguments Raise {A} e.

Definition bind {A B} (m : result A) (k : A -> result B) : result B :=
  match m with
  | Ok a => k a
  | Raise e => Raise e
  end.

End Py.

Import Py.

Notation "x <- m ;; k" := (bind m (fun x => k))
  (at level 61, m at next level, right associativity).

(** ** JSON values *)

Inductive json : Type :=
| JNull
| JBool (b : bool)
| JInt (n : Z)
| JFloat (literal : string)
| JStr (s : string)
| JArr (items : list json)
| JObj (fields : list (string * json)).

(** [d.get(k)] / [k in d] on a dict. *)
Fixpoint lookup (k : string) (fields : list (string * json)) : option json :=
  match fields with
  | [] => None
  | (k', v) :: rest => if String.eqb k k' then Some v else lookup k rest
  end.

(** ** String helpers: [str.split(sep)], [xs[-1]], [str.replace] *)

Fixpoint split (sep : ascii) (s : string) : list string :=
  match s with
  | EmptyString => [EmptyString]
  | String c s' =>
      if Ascii.eqb c sep then EmptyString :: split sep s'
      else match split sep s' with
           | [] => [String c EmptyString]
           | x :: xs => String c x :: xs
           end
  end.

(** [s.split(sep)[-1]]: [split] never returns the empty list, so the
    default is never used. *)
Definition split_last (sep : ascii) (s : string) : string :=
  last (split sep s) EmptyString.

Fixpoint replace_char (old new : ascii) (s : string) : string :=
  match s with
  | EmptyString => EmptyString
  | String c s' => String (if Ascii.eqb c old then new else c) (replace_char old new s')
  end.

Definition newline : ascii := Ascii.ascii_of_nat 10.

(** ** Dates: [datetime] values

    An aware UTC [datetime] is the number of microseconds since the epoch;
    [<] on two of them compares the instants. *)

Module Datetime.

Definition us_per_hour : Z := 3600 * 1000000.
Definition us_per_day : Z := 24 * us_per_hour.

(** [datetime.timedelta(hours=h)] *)
Definition timedelta_hours (h : Z) : Z := h * us_per_hour.

(** Proleptic Gregorian date of a day number counted from 1970-01-01. *)
Definition civil_from_days (days : Z) : Z * Z * Z :=
  let z := days + 719468 in
  let era := z / 146097 in
  let doe := z - era * 146097 in
  let yoe := (doe - doe / 1460 + doe / 36524 - doe / 146096) / 365 in
  let doy := doe - (365 * yoe + yoe / 4 - yoe / 100) in
  let mp := (5 * doy + 2) / 153 in
  let d := doy - (153 * mp + 2) / 5 + 1 in
  let m := if mp <? 10 then mp + 3 else mp - 9 in
  let y := yoe + era * 400 + (if m <=? 2 then 1 else 0) in
  (y, m, d).

Definition digit (n : Z) : string :=
  String (Ascii.ascii_of_nat (48 + Z.to_nat (n mod 10))) EmptyString.

Definition pad2 (n : Z) : string := digit (n / 10) ++ digit n.
(** The decimal digits of [n], most significant first, prepended to
    [acc]; [fuel] bounds the number of digits. *)
Fixpoint decimal_digits (fuel : nat) (n : Z) (acc : string) : string :=
  match fuel with
  | O => acc
  | S fuel' =>
      let acc' := digit n ++ acc in
      if n <? 10 then acc' else decimal_digits fuel' (n / 10) acc'
  end.

(** A year as the C library behind [strftime] writes ["%Y"] on the
    platform the job runs on: in decimal, without padding.  The years of a
    [datetime] are 1 to 9999. *)
Definition decimal (n : Z) : string :=
  decimal_digits (S (Z.to_nat (Z.log2 n))) n EmptyString.

(** [t.strftime("%Y-%m-%d")] *)
Definition strftime_ymd (t : Z) : string :=
  let '(y, m, d) := civil_from_days (t / us_per_day) in
  decimal y ++ "-" ++ pad2 m ++ "-" ++ pad2 d.

End Datetime.

(** ** The upstream entry: the fields of [arxiv.Result] the script reads *)

Record entry : Type := {
  entry_id : string;
  updated : Z;
  categories : list string;
  title : string;
  summary : string;
  authors : list string;      (* the [name] of each author *)
  pdf_url : option string     (* [None] when the feed has no PDF link *)
}.

(** The generator [client_arxiv.results(search)]: it yields entries on
    demand and may raise while producing the next one. *)
Inductive results : Type :=
| Done
| Yield (r : entry) (rest : results)
| Fails (e : exn).

Fixpoint results_of_list (rs : list entry) (tail : results) : results :=
  match rs with
  | [] => tail
  | r :: rs' => Yield r (results_of_list rs' tail)
  end.

(** The entries a generator holds, whether or not the loop reaches them. *)
Fixpoint entries (g : results) : list entry :=
  match g with
  | Yield r rest => r :: entries rest
  | _ => []
  end.

(** ** The outside world of one run *)

(** What [os.path.exists(JSON_FILE)] and, inside the [try],
    [open] + [json.load] give. *)
Inductive file_state : Type :=
| Absent
| Present (loaded : result json).

Record World : Type := {
  file : file_state;
  utc_now : Z;
  upstream : results;
  (** the [i]-th enrichment request, by its prompt: what the body of the
      [try] in [ai_process] evaluates to, that is the request followed by
      [json.loads] of the answer's content *)
  chat : nat -> string -> result json;
  (** the index [random.choice] draws at the [i]-th record *)
  draw : nat -> nat
}.

(** ** Configuration *)

Definition TARGET_CATEGORIES : list string := ["cs.AI"; "cs.CL"; "cs.LG"; "cs.CV"].

Definition GRADIENTS : list string := [
  "bg-gradient-to-br from-indigo-600 to-blue-600";
  "bg-gradient-to-br from-purple-500 to-pink-600";
  "bg-gradient-to-br from-orange-400 to-red-500";
  "bg-gradient-to-br from-emerald-500 to-teal-600";
  "bg-gradient-to-br from-slate-700 to-slate-900";
  "bg-gradient-to-br from-rose-500 to-red-600"
].

(** [c in TARGET_CATEGORIES] *)
Definition in_target (c : string) : bool :=
  existsb (String.eqb c) TARGET_CATEGORIES.

(** [random.choice(GRADIENTS)] with the draw [k]. *)
Definition random_choice (k : nat) : string :=
  nth (k mod List.length GRADIENTS) GRADIENTS EmptyString.

(** ** [get_existing_papers] *)

Definition get_existing_papers (f : file_state) : json :=
  match f with
  | Absent => JArr []
  | Present (Ok data) => data
  | Present (Raise _) => JArr []      (* bare [except:] *)
  end.

(** ** [fetch_arxiv_updates] *)

(** [r.entry_id.split('/')[-1]] *)
Definition paper_id (r : entry) : string := split_last "/" (entry_id r).

(** [paper_id in existing_ids], where [existing_ids] holds the values the
    set was built from: a [str] is equal to a [str] only. *)
Definition id_in (pid : string) (existing_ids : list json) : bool :=
  existsb (fun v => match v with JStr s => String.eqb pid s | _ => false end)
          existing_ids.

Definition time_threshold (now : Z) : Z := now - Datetime.timedelta_hours 25.

(** The [for] loop over the generator, with [new_papers] as accumulator. *)
Fixpoint fetch_loop (existing_ids : list json) (threshold : Z)
         (g : results) (new_papers : list entry) : result (list entry) :=
  match g with
  | Done => Ok new_papers
  | Fails e => Raise e
  | Yield r rest =>
      let pid := paper_id r in
      if updated r <? threshold then Ok new_papers                       (* break *)
      else if id_in pid existing_ids then
        fetch_loop existing_ids threshold rest new_papers                (* continue *)
      else
        let cats := filter in_target (categories r) in
        match cats with
        | [] => fetch_loop existing_ids threshold rest new_papers        (* continue *)
        | _ :: _ => fetch_loop existing_ids threshold rest (new_papers ++ [r])
        end
  end.

Definition fetch_arxiv_updates (w : World) (existing_ids : list json)
  : result (list entry) :=
  fetch_loop existing_ids (time_threshold (utc_now w)) (upstream w) [].

(** ** [ai_process] *)

Definition fallback_innovation : string := "AI 总结暂不可用".
Definition fallback_abstract_zh : string := "翻译暂不可用".

(** The dict of the [except] branch. *)
Definition fallback_pair : json :=
  JObj [("innovation", JStr fallback_innovation);
        ("abstract_zh", JStr fallback_abstract_zh)].

Definition nl : string := String newline EmptyString.
Definition quoted (s : string) : string :=
  String (Ascii.ascii_of_nat 34) (s ++ String (Ascii.ascii_of_nat 34) EmptyString).

(** The f-string [prompt]. *)
Definition prompt (title abstract : string) : string :=
  nl ++ "    请处理以下论文信息：" ++
  nl ++ "    Title: " ++ title ++
  nl ++ "    Abstract: " ++ abstract ++
  nl ++
  nl ++ "    任务：" ++
  nl ++ "    1. Innovation: 用中文一句话总结核心创新点（<50字）。" ++
  nl ++ "    2. Abstract_zh: 将摘要翻译成中文。" ++
  nl ++
  nl ++ "    请仅返回合法的 JSON 格式：" ++
  nl ++ "    { " ++ quoted "innovation" ++ ": " ++ quoted "..." ++ ", " ++
        quoted "abstract_zh" ++ ": " ++ quoted "..." ++ " }" ++
  nl ++ "    ".

(** The [i]-th call of [ai_process(title, abstract)] in the run. *)
Definition ai_process (w : World) (i : nat) (title abstract : string)
  : result json :=
  match chat w i (prompt title abstract) with
  | Ok res => Ok res
  | Raise e =>
      if is_Exception e then Ok fallback_pair       (* except Exception *)
      else Raise e
  end.

(** ** The record builder: the dict display [paper_obj] in [main] *)

Definition default_innovation : string := "无总结".
Definition default_abstract_zh : string := "无翻译".

(** [x.get(k, default)]: only a dict has the method. *)
Definition py_get (x : json) (k : string) (default : json) : result json :=
  match x with
  | JObj fields =>
      Ok (match lookup k fields with Some v => v | None => default end)
  | _ => Raise AttributeError
  end.

(** [xs[0]] *)
Definition subscript0 (xs : list string) : result string :=
  match xs with
  | [] => Raise IndexError
  | x :: _ => Ok x
  end.

(** [[t.split('.')[-1] for t in r.categories if t in TARGET_CATEGORIES]] *)
Definition tags_of (r : entry) : list string :=
  map (split_last ".") (filter in_target (categories r)).

Definition json_of_option (o : option string) : json :=
  match o with
  | Some s => JStr s
  | None => JNull
  end.

(** The values are evaluated in the order of the display, so the first
    lookup on a non-dict [ai_res] raises before [r.categories[0]] is read. *)
Definition paper_obj (r : entry) (ai_res : json) (gradient : string)
  : result json :=
  innovation <- py_get ai_res "innovation" (JStr default_innovation) ;;
  abstract_zh <- py_get ai_res "abstract_zh" (JStr default_abstract_zh) ;;
  affiliation <- subscript0 (categories r) ;;
  Ok (JObj [
    ("id", JStr (paper_id r));
    ("orig_title", JStr (replace_char newline " " (title r)));
    ("tags", JArr (map JStr (tags_of r)));
    ("userTags", JArr []);
    ("coverGradient", JStr gradient);
    ("summary", JObj [("innovation", innovation)]);
    ("abstract_zh", abstract_zh);
    ("abstract_en", JStr (replace_char newline " " (summary r)));
    ("authors", JArr (map JStr (firstn 5 (authors r))));
    ("affiliation", JStr affiliation);
    ("date", JStr (Datetime.strftime_ymd (updated r)));
    ("pdf_url", json_of_option (pdf_url r));
    ("likes", JInt 0); ("isLiked", JBool false);
    ("collections", JInt 0); ("isCollected", JBool false);
    ("comments", JArr []); ("qa", JArr []);
    ("expanded", JBool false); ("isTranslated", JBool false)
  ]).

(** ** [main] *)

(** [for p in existing_data]: what iterating the loaded value yields.
    A dict yields its keys and a [str] its characters; whatever the
    characters are, subscripting one of them with ['id'] raises. *)
Definition py_iter (data : json) : result (list json) :=
  match data with
  | JArr items => Ok items
  | JObj fields => Ok (map (fun kv => JStr (fst kv)) fields)
  | JStr s => Ok (map (fun c => JStr (String c EmptyString)) (list_ascii_of_string s))
  | _ => Raise TypeError
  end.

(** [p['id']] *)
Definition subscript_id (p : json) : result json :=
  match p with
  | JObj fields =>
      match lookup "id" fields with
      | Some v => Ok v
      | None => Raise (KeyError "id")
      end
  | _ => Raise TypeError
  end.

(** A list or a dict cannot be a member of a set. *)
Definition hashable (v : json) : bool :=
  match v with
  | JArr _ | JObj _ => false
  | _ => true
  end.

Fixpoint collect_ids (items : list json) : result (list json) :=
  match items with
  | [] => Ok []
  | p :: rest =>
      v <- subscript_id p ;;
      if hashable v then (ids <- collect_ids rest ;; Ok (v :: ids))
      else Raise TypeError
  end.

(** [{p['id'] for p in existing_data}], kept as the list of the values
    added, in order: the script only tests membership in it. *)
Definition existing_ids_of (existing_data : json) : result (list json) :=
  items <- py_iter existing_data ;;
  collect_ids items.

(** The [try] around [fetch_arxiv_updates]. *)
Definition raw_papers_of (w : World) (existing_ids : list json)
  : result (list entry) :=
  match fetch_arxiv_updates w existing_ids with
  | Ok papers => Ok papers
  | Raise e =>
      if is_Exception e then Ok []                  (* except Exception *)
      else Raise e
  end.

(** The body of the loop at index [i]: enrich, then build. *)
Definition process_one (w : World) (i : nat) (r : entry) : result json :=
  ai_res <- ai_process w i (title r) (summary r) ;;
  paper_obj r ai_res (random_choice (draw w i)).

(** The loop [for i, r in enumerate(raw_papers)], from index [i] on. *)
Fixpoint process_loop (w : World) (i : nat) (raw_papers : list entry)
         (processed_list : list json) : result (list json) :=
  match raw_papers with
  | [] => Ok processed_list
  | r :: rest =>
      paper <- process_one w i r ;;
      process_loop w (S i) rest (processed_list ++ [paper])
  end.

(** [if raw_papers: ... else: ...] *)
Definition process (w : World) (raw_papers : list entry) : result (list json) :=
  match raw_papers with
  | [] => Ok []
  | _ :: _ => process_loop w 0 raw_papers []
  end.

(** [processed_list + existing_data]: a list is added to a list only. *)
Definition list_add (processed_list : list json) (existing_data : json)
  : result (list json) :=
  match existing_data with
  | JArr items => Ok (processed_list ++ items)%list
  | _ => Raise TypeError
  end.

(** One run of [main].  The value is [final_data], the array that
    [json.dump] writes over the file; every exception of the model leaves
    [main] before the file is opened for writing.  A failure of the write
    itself (the operating system refusing it) is not part of the model. *)
Definition main (w : World) : result (list json) :=
  let existing_data := get_existing_papers (file w) in
  existing_ids <- existing_ids_of existing_data ;;
  raw_papers <- raw_papers_of w existing_ids ;;
  processed_list <- process w raw_papers ;;
  final_data <- list_add processed_list existing_data ;;
  Ok final_data.

(** The module body before [main]: the script refuses to start without
    the credential. *)
Definition script (api_key : option string) (w : World) : result (list json) :=
  match api_key with
  | None | Some EmptyString => Raise ValueError
  | Some _ => main w
  end.

(** ** Derived notions used by the statements *)

(** The batch a run builds before the merge: the first three steps of
    [main] after the load. *)
Definition new_batch (w : World) (existing_data : json) : result (list json) :=
  existing_ids <- existing_ids_of existing_data ;;
  raw_papers <- raw_papers_of w existing_ids ;;
  process w raw_papers.

(** An entry passes the two [continue] tests of the fetch loop. *)
Definition eligible (existing_ids : list json) (r : entry) : bool :=
  negb (id_in (paper_id r) existing_ids) && existsb in_target (categories r).

(** The entries the fetch loop pulls from the generator and keeps
    examining: those before the first one older than the threshold. *)
Fixpoint consumed (threshold : Z) (g : results) : list entry :=
  match g with
  | Yield r rest =>
      if updated r <? threshold then [] else r :: consumed threshold rest
  | _ => []
  end.

(** A PaperRecord-shaped mapping: a dict whose ["id"] is a string. *)
Definition is_record (p : json) : bool :=
  match p with
  | JObj fields =>
      match lookup "id" fields with
      | Some (JStr _) => true
      | _ => false
      end
  | _ => false
  end.

(** [obj[k1][k2]...] on nested dicts. *)
Fixpoint get_path (path : list string) (obj : json) : option json :=
  match path with
  | [] => Some obj
  | k :: rest =>
      match obj with
      | JObj fields =>
          match lookup k fields with
          | Some v => get_path rest v
          | None => None
          end
      | _ => None
      end
  end.

Definition has_dot (s : string) : bool :=
  existsb (Ascii.eqb ".") (list_ascii_of_string s).

(** The category with its prefix, the part up to the last dot, removed;
    a category without a dot has no prefix. *)
Fixpoint strip_prefix (s : string) : string :=
  match s with
  | EmptyString => EmptyString
  | String c s' =>
      if has_dot s' then strip_prefix s'
      else if Ascii.eqb c "." then s'
      else String c s'
  end.

(** ** Further parts of the script *)

(** [sep.join(parts)] *)
Fixpoint join (sep : string) (parts : list string) : string :=
  match parts with
  | [] => EmptyString
  | [x] => x
  | x :: rest => x ++ sep ++ join sep rest
  end.

(** [" OR ".join([f"cat:{cat}" for cat in TARGET_CATEGORIES])] *)
Definition query : string :=
  join " OR " (map (fun cat => "cat:" ++ cat) TARGET_CATEGORIES).

(** [c in s] for a character. *)
Definition contains (c : ascii) (s : string) : bool :=
  existsb (Ascii.eqb c) (list_ascii_of_string s).

(** [not (r.updated < time_threshold)] *)
Definition fresh (threshold : Z) (r : entry) : bool :=
  negb (updated r <? threshold).

(** The order the early exit relies on: each entry was updated no later
    than the one before it. *)
Fixpoint descending (rs : list entry) : bool :=
  match rs with
  | r1 :: rest =>
      match rest with
      | r2 :: _ => (updated r2 <=? updated r1) && descending rest
      | [] => true
      end
  | [] => true
  end.

(** What [ai_process] can hand to the builder without stopping the run:
    the service raised an [Exception], or it answered with a JSON object. *)
Definition usable_answer (a : result json) : bool :=
  match a with
  | Ok (JObj _) => true
  | Ok _ => false
  | Raise e => is_Exception e
  end.

(** The short names of the target categories. *)
Definition TARGET_TAGS : list string := ["AI"; "CL"; "LG"; "CV"].

(** ** Sample runs

    Concrete worlds on which the statements below are exercised. *)

Module Samples.

Definition mk_entry (id : string) (t : Z) (cats : list string) : entry :=
  {| entry_id := "http://arxiv.org/abs/" ++ id;
     updated := t;
     categories := cats;
     title := "A study of things";
     summary := "We study things.";
     authors := ["A. One"; "B. Two"; "C. Three"; "D. Four"; "E. Five"; "F. Six"];
     pdf_url := Some ("http://arxiv.org/pdf/" ++ id) |}.

(** The run starts on 2024-01-02 at 01:00 UTC, so the threshold is
    2024-01-01 at 00:00 UTC. *)
Definition now : Z := (1704067200 + 25 * 3600) * 1000000.
Definition cut : Z := 1704067200 * 1000000.

Definition e_ai : entry := mk_entry "2401.00001v1" cut ["math.CO"; "cs.AI"].
Definition e_math : entry := mk_entry "2401.00002v1" (cut + 1) ["math.CO"].
Definition e_old : entry := mk_entry "2401.00003v1" (cut - 1) ["cs.CV"].
Definition e_late : entry := mk_entry "2401.00004v1" (cut + 5) ["cs.LG"].
Definition e_cl : entry := mk_entry "2401.00005v1" (cut + 7) ["cs.CL"; "cs.LG"].

Definition interrupted : results := Fails (BaseOnly "KeyboardInterrupt").

Definition no_chat : nat -> string -> result json :=
  fun _ _ => Raise (OtherException "APIConnectionError").

(** A first run: no file; three fresh entries, one of them outside the
    target categories, then an old entry followed by a fresh one and an
    interrupt; a chat service that fails on the first request and answers
    the later ones with an empty object. *)
Definition w_first : World :=
  {| file := Absent;
     utc_now := now;
     upstream := results_of_list [e_cl; e_math; e_ai] (Yield e_old (Yield e_late interrupted));
     chat := fun i _ => match i with
                        | O => Raise (OtherException "APIConnectionError")
                        | _ => Ok (JObj [])
                        end;
     draw := fun i => (7 + i)%nat |}.

(** The record a previous run stored for [e_ai]. *)
Definition stored_ai : json :=
  JObj [("id", JStr "2401.00001v1"); ("orig_title", JStr "A study of things");
        ("likes", JInt 3)].

(** A later run: the file holds [e_ai] already and upstream lists it
    again, after a fresh entry. *)
Definition w_known : World :=
  {| file := Present (Ok (JArr [stored_ai]));
     utc_now := now;
     upstream := results_of_list [e_cl; e_ai; e_math] (Yield e_old Done);
     chat := no_chat;
     draw := fun _ => 0%nat |}.

(** A run during an upstream outage. *)
Definition w_outage : World :=
  {| file := Present (Ok (JArr [stored_ai]));
     utc_now := now;
     upstream := Fails (OtherException "HTTPError");
     chat := no_chat;
     draw := fun _ => 0%nat |}.

(** Upstream lists the same entry twice. *)
Definition w_twice : World :=
  {| file := Absent;
     utc_now := now;
     upstream := Yield e_ai (Yield e_ai Done);
     chat := no_chat;
     draw := fun _ => 0%nat |}.

(** The chat service answers with a JSON array. *)
Definition w_array : World :=
  {| file := Absent;
     utc_now := now;
     upstream := Yield e_ai Done;
     chat := fun _ _ => Ok (JArr []);
     draw := fun _ => 0%nat |}.

Definition built (w : World) (i : nat) (r : entry) : json :=
  match process_one w i r with
  | Ok obj => obj
  | Raise _ => JNull
  end.

(** Upstream in descending order of update, ending normally. *)
Definition w_sorted : World :=
  {| file := Present (Ok (JArr [stored_ai]));
     utc_now := now;
     upstream := results_of_list [e_cl; e_late; e_math; e_ai; e_old] Done;
     chat := no_chat;
     draw := fun i => i |}.

(** Upstream fails after it has yielded a fresh entry. *)
Definition w_broken : World :=
  {| file := Present (Ok (JArr [stored_ai]));
     utc_now := now;
     upstream := results_of_list [e_cl; e_late] (Fails (OtherException "HTTPError"));
     chat := no_chat;
     draw := fun i => i |}.

(** The run after [w_known], an hour later, on the file [w_known] wrote. *)
Definition w_rerun : World :=
  {| file := Present (Ok (JArr [built w_known 0 e_cl; stored_ai]));
     utc_now := now + 3600 * 1000000;
     upstream := upstream w_known;
     chat := fun _ _ => Ok (JObj []);
     draw := fun i => (3 + i)%nat |}.

(** The file holds a JSON number. *)
Definition w_number : World :=
  {| file := Present (Ok (JInt 42));
     utc_now := now;
     upstream := Yield e_cl Done;
     chat := no_chat;
     draw := fun i => i |}.

(** The chat service answers with an object whose innovation is [null]. *)
Definition w_null : World :=
  {| file := Absent;
     utc_now := now;
     upstream := Yield e_cl Done;
     chat := fun _ _ => Ok (JObj [("innovation", JNull)]);
     draw := fun i => i |}.

End Samples.

(** Inversion of a successful [paper_obj]. *)
Ltac paper_obj_inv H :=
  unfold paper_obj, bind in H;
  destruct (py_get _ "innovation" _) eqn:?; [|discriminate H];
  destruct (py_get _ "abstract_zh" _) eqn:?; [|discriminate H];
  destruct (subscript0 _) eqn:?; [|discriminate H];
  injection H as <-.

(** * Properties *)

(** ** Sanity checks of the helpers on concrete values *)

Example split_entry_id :
  split "/" "http://arxiv.org/abs/2401.00001v1" =
  ["http:"; ""; "arxiv.org"; "abs"; "2401.00001v1"].
Proof. reflexivity. Qed.

Example split_empty : split "/" "" = [""].
Proof. reflexivity. Qed.

Example strftime_new_year :
  Datetime.strftime_ymd (1704067200 * 1000000) = "2024-01-01".
Proof. reflexivity. Qed.

Example strftime_leap_day :
  Datetime.strftime_ymd (1709251199 * 1000000) = "2024-02-29".
Proof. reflexivity. Qed.

Example strftime_before_epoch : Datetime.strftime_ymd (-1) = "1969-12-31".
Proof. reflexivity. Qed.

Example strftime_three_digit_year :
  Datetime.strftime_ymd (-354286 * Datetime.us_per_day) = "999-12-31".
Proof. reflexivity. Qed.

(** ** Strings *)

Lemma split_nonempty (sep : ascii) (s : string) : split sep s <> [].
Proof.
  destruct s as [|c s]; simpl; [discriminate|].
  destruct (Ascii.eqb c sep); [discriminate|].
  destruct (split sep s); discriminate.
Qed.

Lemma has_dot_cons (c : ascii) (s : string) :
  has_dot (String c s) = Ascii.eqb "." c || has_dot s.
Proof. reflexivity. Qed.

Lemma split_no_dot (s : string) : has_dot s = false -> split "." s = [s].
Proof.
  induction s as [|c s IH]; intros H; [reflexivity|].
  rewrite has_dot_cons in H. apply orb_false_iff in H as [Hc Hs].
  simpl. rewrite Ascii.eqb_sym, Hc, (IH Hs). reflexivity.
Qed.

Lemma split_has_dot (s : string) :
  has_dot s = true -> exists x y ys, split "." s = x :: y :: ys.
Proof.
  induction s as [|c s IH]; intros H; [discriminate|].
  rewrite has_dot_cons in H. simpl.
  destruct (Ascii.eqb c ".") eqn:Hc.
  - destruct (split "." s) as [|y ys] eqn:Hs; [now apply split_nonempty in Hs|].
    now exists EmptyString, y, ys.
  - rewrite Ascii.eqb_sym, Hc in H. simpl in H.
    destruct (IH H) as (x & y & ys & ->). now exists (String c x), y, ys.
Qed.

Lemma strip_prefix_no_dot (s : string) : has_dot s = false -> strip_prefix s = s.
Proof.
  destruct s as [|c s]; intros H; [reflexivity|].
  rewrite has_dot_cons in H. apply orb_false_iff in H as [Hc Hs].
  simpl. now rewrite Hs, Ascii.eqb_sym, Hc.
Qed.

(** The source's [t.split('.')[-1]] is the prefix-stripping of the spec. *)
Lemma split_last_strip_prefix (s : string) : split_last "." s = strip_prefix s.
Proof.
  unfold split_last. induction s as [|c s IH]; [reflexivity|].
  simpl. destruct (has_dot s) eqn:Hd.
  - destruct (split_has_dot s Hd) as (x & y & ys & Hs). rewrite Hs in *.
    destruct (Ascii.eqb c "."); exact IH.
  - rewrite (split_no_dot s Hd).
    destruct (Ascii.eqb c "."); reflexivity.
Qed.

Lemma has_dot_app (p q : string) : has_dot (p ++ q) = has_dot p || has_dot q.
Proof.
  induction p as [|c p IH]; [reflexivity|].
  simpl append. now rewrite !has_dot_cons, IH, orb_assoc.
Qed.

(** What stripping does to a dotted name: [p.q] with no dot in [q] gives [q]. *)
Lemma strip_prefix_dotted (p q : string) :
  has_dot q = false -> strip_prefix (p ++ String "." q) = q.
Proof.
  intros Hq. induction p as [|c p IH].
  - simpl. now rewrite Hq.
  - simpl append. simpl strip_prefix.
    rewrite has_dot_app, has_dot_cons. simpl. rewrite orb_true_r. exact IH.
Qed.

Lemma in_target_In (c : string) : in_target c = true <-> In c TARGET_CATEGORIES.
Proof.
  unfold in_target. rewrite existsb_exists. split.
  - intros (x & Hx & E). apply String.eqb_eq in E. now subst.
  - intros H. exists c. split; [exact H | apply String.eqb_refl].
Qed.

Lemma filter_nil_existsb {A} (f : A -> bool) (l : list A) :
  filter f l = [] <-> existsb f l = false.
Proof.
  induction l as [|a l IH]; simpl; [tauto|].
  destruct (f a); simpl; [split; discriminate | exact IH].
Qed.

(** ** The fetch loop *)

Section FetchLoop.

Variable existing_ids : list json.
Variable threshold : Z.

(** One iteration on an entry that is not too old. *)
Lemma fetch_loop_step (r : entry) (rest : results) (acc : list entry) :
  threshold <= updated r ->
  fetch_loop existing_ids threshold (Yield r rest) acc =
  fetch_loop existing_ids threshold rest
             (if eligible existing_ids r then acc ++ [r] else acc)%list.
Proof.
  intros Hr. unfold eligible. simpl.
  destruct (Z.ltb_spec (updated r) threshold) as [Hlt|_]; [lia|].
  destruct (id_in (paper_id r) existing_ids); simpl; [reflexivity|].
  destruct (filter in_target (categories r)) as [|c cs] eqn:Hf.
  - apply filter_nil_existsb in Hf. now rewrite Hf.
  - destruct (existsb in_target (categories r)) eqn:He; [reflexivity|].
    apply filter_nil_existsb in He. congruence.
Qed.

Lemma fetch_loop_break (r : entry) (rest : results) (acc : list entry) :
  updated r < threshold -> fetch_loop existing_ids threshold (Yield r rest) acc = Ok acc.
Proof.
  intros Hr. simpl.
  destruct (Z.ltb_spec (updated r) threshold); [reflexivity | lia].
Qed.

(** Whatever the loop returns is the accumulator followed by the eligible
    entries among the consumed ones, in upstream order. *)
Lemma fetch_loop_consumed (g : results) :
  forall acc out,
    fetch_loop existing_ids threshold g acc = Ok out ->
    out = (acc ++ filter (eligible existing_ids) (consumed threshold g))%list.
Proof.
  induction g as [|r rest IH|e]; intros acc out H.
  - simpl in H. injection H as <-. simpl. now rewrite app_nil_r.
  - simpl consumed. destruct (Z.ltb_spec (updated r) threshold) as [Hlt|Hge].
    + rewrite (fetch_loop_break r rest acc Hlt) in H. injection H as <-.
      simpl. now rewrite app_nil_r.
    + rewrite (fetch_loop_step r rest acc Hge) in H. apply IH in H. subst out.
      simpl. destruct (eligible existing_ids r); [|reflexivity].
      now rewrite <- app_assoc.
  - discriminate.
Qed.

(** The loop runs through a prefix of fresh entries and stops at the
    first old one: the rest of the generator plays no part. *)
Lemma fetch_loop_cutoff (pre : list entry) (r : entry) (tail : results) :
  Forall (fun x => threshold <= updated x) pre ->
  updated r < threshold ->
  forall acc,
    fetch_loop existing_ids threshold (results_of_list pre (Yield r tail)) acc =
    Ok (acc ++ filter (eligible existing_ids) pre)%list.
Proof.
  intros Hpre Hr. induction Hpre as [|x pre Hx _ IH]; intros acc.
  - simpl results_of_list. rewrite (fetch_loop_break r tail acc Hr).
    simpl. now rewrite app_nil_r.
  - simpl results_of_list. rewrite (fetch_loop_step x _ acc Hx), IH.
    simpl. destruct (eligible existing_ids x); [|reflexivity].
    now rewrite <- app_assoc.
Qed.

Lemma consumed_prefix (g : results) :
  exists post, entries g = (consumed threshold g ++ post)%list.
Proof.
  induction g as [|r rest [post IH]|e]; simpl.
  - now exists [].
  - destruct (updated r <? threshold).
    + now exists (r :: entries rest).
    + exists post. simpl. now rewrite IH.
  - now exists [].
Qed.

Lemma consumed_fresh (g : results) :
  Forall (fun x => threshold <= updated x) (consumed threshold g).
Proof.
  induction g as [|r rest IH|e]; simpl; try constructor.
  destruct (Z.ltb_spec (updated r) threshold); constructor; assumption.
Qed.

(** Every emitted entry was yielded by the generator, is unknown and
    carries a target category. *)
Lemma fetch_loop_emitted (g : results) (out : list entry) (r : entry) :
  fetch_loop existing_ids threshold g [] = Ok out -> In r out ->
  In r (entries g) /\ threshold <= updated r /\
  id_in (paper_id r) existing_ids = false /\
  existsb in_target (categories r) = true.
Proof.
  intros H Hin. apply fetch_loop_consumed in H. simpl in H. subst out.
  apply filter_In in Hin as [Hc He].
  unfold eligible in He. apply andb_true_iff in He as [Hid Hcat].
  apply negb_true_iff in Hid.
  repeat split; try assumption.
  - destruct (consumed_prefix g) as [post ->]. apply in_or_app. now left.
  - pose proof (consumed_fresh g) as Hf. rewrite Forall_forall in Hf. now apply Hf.
Qed.

End FetchLoop.

(** ** The guarded fetch of [main] *)

Lemma raw_papers_cases (w : World) (ids : list json) (raw : list entry) :
  raw_papers_of w ids = Ok raw ->
  fetch_arxiv_updates w ids = Ok raw \/
  (raw = [] /\ exists e, fetch_arxiv_updates w ids = Raise e /\ is_Exception e = true).
Proof.
  unfold raw_papers_of. destruct (fetch_arxiv_updates w ids) as [l|e].
  - intros [= <-]. now left.
  - destruct (is_Exception e) eqn:He; [|discriminate].
    intros [= <-]. right. split; [reflexivity|]. now exists e.
Qed.

Lemma raw_papers_raise (w : World) (ids : list json) (e : exn) :
  raw_papers_of w ids = Raise e -> is_Exception e = false.
Proof.
  unfold raw_papers_of. destruct (fetch_arxiv_updates w ids) as [l|e']; [discriminate|].
  destruct (is_Exception e') eqn:He; [discriminate|]. now intros [= <-].
Qed.

Lemma raw_papers_emitted (w : World) (ids : list json) (raw : list entry) (r : entry) :
  raw_papers_of w ids = Ok raw -> In r raw ->
  In r (entries (upstream w)) /\
  time_threshold (utc_now w) <= updated r /\
  id_in (paper_id r) ids = false /\
  existsb in_target (categories r) = true.
Proof.
  intros H Hin. destruct (raw_papers_cases _ _ _ H) as [Hf|[-> _]]; [|destruct Hin].
  unfold fetch_arxiv_updates in Hf. eapply fetch_loop_emitted; eassumption.
Qed.

Lemma raw_papers_filtered (w : World) (ids : list json) (raw : list entry) :
  raw_papers_of w ids = Ok raw ->
  raw = [] \/
  raw = filter (eligible ids) (consumed (time_threshold (utc_now w)) (upstream w)).
Proof.
  intros H. destruct (raw_papers_cases _ _ _ H) as [Hf|[-> _]]; [|now left].
  right. unfold fetch_arxiv_updates in Hf.
  now apply fetch_loop_consumed in Hf.
Qed.

(** ** Enrichment and the record builder *)

Lemma ai_process_raise (w : World) (i : nat) (t a : string) (e : exn) :
  ai_process w i t a = Raise e -> is_Exception e = false.
Proof.
  unfold ai_process. destruct (chat w i (prompt t a)) as [res|e']; [discriminate|].
  destruct (is_Exception e') eqn:He; [discriminate|]. now intros [= <-].
Qed.

Lemma paper_obj_id (r : entry) (ai_res : json) (g : string) (obj : json) :
  paper_obj r ai_res g = Ok obj ->
  subscript_id obj = Ok (JStr (paper_id r)) /\ is_record obj = true.
Proof. intros H. paper_obj_inv H. split; reflexivity. Qed.

Lemma paper_obj_total (r : entry) (fields : list (string * json)) (g : string) :
  categories r <> [] -> exists obj, paper_obj r (JObj fields) g = Ok obj.
Proof.
  intros Hc. unfold paper_obj. simpl.
  destruct (categories r) as [|c cs]; [congruence|]. simpl. eauto.
Qed.

Lemma paper_obj_raise (r : entry) (ai_res : json) (g : string) (e : exn) :
  paper_obj r ai_res g = Raise e ->
  e = AttributeError \/ (e = IndexError /\ categories r = []).
Proof.
  unfold paper_obj, bind.
  destruct ai_res; simpl; try (intros [= <-]; now left).
  destruct (categories r); simpl; [intros [= <-]; now right | discriminate].
Qed.

Lemma process_one_id (w : World) (i : nat) (r : entry) (obj : json) :
  process_one w i r = Ok obj ->
  subscript_id obj = Ok (JStr (paper_id r)) /\ is_record obj = true.
Proof.
  unfold process_one, bind.
  destruct (ai_process w i (title r) (summary r)); [|discriminate].
  apply paper_obj_id.
Qed.

(** ** The processing loop *)

Lemma process_loop_ok (w : World) (raw : list entry) :
  forall i acc out,
    process_loop w i raw acc = Ok out ->
    exists batch,
      out = (acc ++ batch)%list /\
      List.length batch = List.length raw /\
      forall k r, nth_error raw k = Some r ->
        exists obj, nth_error batch k = Some obj /\
                    process_one w (i + k) r = Ok obj.
Proof.
  induction raw as [|r0 raw IH]; intros i acc out H; simpl in H.
  - injection H as <-. exists []. rewrite app_nil_r.
    repeat split. intros [|k] r; discriminate.
  - unfold bind in H. destruct (process_one w i r0) as [obj0|] eqn:H0; [|discriminate].
    apply IH in H as (batch & -> & Hlen & Hnth).
    exists (obj0 :: batch). rewrite <- app_assoc. simpl.
    repeat split; [now rewrite Hlen|].
    intros [|k] r Hr; simpl in Hr.
    + injection Hr as <-. exists obj0. now rewrite Nat.add_0_r.
    + destruct (Hnth k r Hr) as (obj & Ho & Hp). exists obj.
      split; [exact Ho|]. now rewrite Nat.add_succ_r.
Qed.

Lemma process_loop_total (w : World) (raw : list entry) :
  forall i acc,
    (forall k r, nth_error raw k = Some r ->
       exists obj, process_one w (i + k) r = Ok obj) ->
    exists out, process_loop w i raw acc = Ok out.
Proof.
  induction raw as [|r0 raw IH]; intros i acc H; simpl.
  - eauto.
  - destruct (H 0%nat r0 eq_refl) as [obj0 H0]. rewrite Nat.add_0_r in H0.
    rewrite H0. simpl. apply IH. intros k r Hr.
    specialize (H (S k) r Hr). now rewrite Nat.add_succ_r in H.
Qed.

Lemma process_loop_raise (w : World) (raw : list entry) :
  forall i acc e,
    process_loop w i raw acc = Raise e ->
    exists k r, nth_error raw k = Some r /\ process_one w (i + k) r = Raise e.
Proof.
  induction raw as [|r0 raw IH]; intros i acc e H; simpl in H; [discriminate|].
  unfold bind in H. destruct (process_one w i r0) as [obj0|e0] eqn:H0.
  - apply IH in H as (k & r & Hr & Hp). exists (S k), r.
    split; [exact Hr|]. now rewrite Nat.add_succ_r.
  - injection H as <-. exists 0%nat, r0. now rewrite Nat.add_0_r.
Qed.

Lemma process_eq (w : World) (raw : list entry) :
  process w raw = process_loop w 0 raw [].
Proof. now destruct raw. Qed.

(** Every record of the batch is built from the entry at its position. *)
Lemma process_Forall2 (w : World) (raw : list entry) (batch : list json) :
  process w raw = Ok batch ->
  Forall2 (fun r obj => exists i, process_one w i r = Ok obj) raw batch.
Proof.
  rewrite process_eq. intros H.
  apply process_loop_ok in H as (b & Hb & Hlen & Hnth). simpl in Hb. subst b.
  clear - Hlen Hnth. revert batch Hlen Hnth. generalize 0%nat.
  induction raw as [|r raw IH]; intros i [|obj batch] Hlen Hnth;
    try discriminate; constructor.
  - destruct (Hnth 0%nat r eq_refl) as (o & [= <-] & Hp). eauto.
  - apply (IH (S i)); [now injection Hlen|].
    intros k r' Hr. destruct (Hnth (S k) r' Hr) as (o & Ho & Hp).
    exists o. split; [exact Ho|]. now rewrite Nat.add_succ_r in Hp.
Qed.

(** ** The shape of a run *)

Lemma main_new_batch (w : World) :
  main w =
  (batch <- new_batch w (get_existing_papers (file w)) ;;
   list_add batch (get_existing_papers (file w))).
Proof.
  unfold main, new_batch, bind.
  destruct (existing_ids_of (get_existing_papers (file w))) as [ids|]; [|reflexivity].
  destruct (raw_papers_of w ids) as [raw|]; [|reflexivity].
  destruct (process w raw) as [batch|]; [|reflexivity].
  now destruct (list_add batch (get_existing_papers (file w))).
Qed.

Lemma main_ok_intro (w : World) (E ids : list json) (raw : list entry)
      (batch : list json) :
  get_existing_papers (file w) = JArr E ->
  existing_ids_of (JArr E) = Ok ids ->
  raw_papers_of w ids = Ok raw ->
  process w raw = Ok batch ->
  main w = Ok (batch ++ E)%list.
Proof.
  intros HE Hids Hraw Hb. unfold main. rewrite HE, Hids. simpl.
  rewrite Hraw. simpl. rewrite Hb. reflexivity.
Qed.

Lemma main_ok_inv (w : World) (final : list json) :
  main w = Ok final ->
  exists E ids raw batch,
    get_existing_papers (file w) = JArr E /\
    existing_ids_of (JArr E) = Ok ids /\
    raw_papers_of w ids = Ok raw /\
    process w raw = Ok batch /\
    final = (batch ++ E)%list.
Proof.
  unfold main, bind.
  destruct (existing_ids_of (get_existing_papers (file w))) as [ids|] eqn:Hids;
    [|discriminate].
  destruct (raw_papers_of w ids) as [raw|] eqn:Hraw; [|discriminate].
  destruct (process w raw) as [batch|] eqn:Hb; [|discriminate].
  destruct (get_existing_papers (file w)) as [| | | | |E|] eqn:HE;
    simpl; try discriminate.
  intros [= <-]. now exists E, ids, raw, batch.
Qed.

(** ** The id set *)

Lemma id_in_In (pid : string) (ids : list json) :
  id_in pid ids = true <-> In (JStr pid) ids.
Proof.
  unfold id_in. rewrite existsb_exists. split.
  - intros (v & Hv & E). destruct v; try discriminate.
    apply String.eqb_eq in E. now subst.
  - intros H. exists (JStr pid). split; [exact H | apply String.eqb_refl].
Qed.

Lemma collect_ids_app (l1 l2 a b : list json) :
  collect_ids l1 = Ok a -> collect_ids l2 = Ok b ->
  collect_ids (l1 ++ l2) = Ok (a ++ b)%list.
Proof.
  revert a. induction l1 as [|p l1 IH]; intros a H1 H2; simpl in *.
  - now injection H1 as <-.
  - unfold bind in *. destruct (subscript_id p) as [v|]; [|discriminate].
    destruct (hashable v); [|discriminate].
    destruct (collect_ids l1) as [a'|] eqn:Ha; [|discriminate].
    injection H1 as <-. now rewrite (IH a' eq_refl H2).
Qed.

Lemma collect_ids_batch (w : World) (raw : list entry) (batch : list json) :
  Forall2 (fun r obj => exists i, process_one w i r = Ok obj) raw batch ->
  collect_ids batch = Ok (map (fun r => JStr (paper_id r)) raw).
Proof.
  induction 1 as [|r obj raw batch [i Hp] _ IH]; [reflexivity|].
  simpl. destruct (process_one_id _ _ _ _ Hp) as [-> _]. simpl. now rewrite IH.
Qed.

(** A collection of records always has an id set. *)
Lemma records_have_ids (E : list json) :
  forallb is_record E = true -> exists ids, existing_ids_of (JArr E) = Ok ids.
Proof.
  unfold existing_ids_of. simpl.
  induction E as [|p E IH]; simpl; [eauto|].
  intros H. apply andb_true_iff in H as [Hp HE].
  destruct (IH HE) as [ids ->].
  destruct p as [| | | | | |fields]; try discriminate. simpl in *.
  destruct (lookup "id" fields) as [[]|]; try discriminate. simpl. eauto.
Qed.

(** * The claims *)

(** ** Time cutoff *)

(** C2. The threshold is 25 hours before the start of the run.  When the
    generator yields a run [pre] of entries updated at or after the
    threshold and then an entry [r] updated strictly before it, every entry
    of [pre], the one exactly at the threshold included, goes on to the id
    and category tests, and the loop stops at [r]: the entries consumed are
    exactly [pre], and the result is the eligible part of [pre] whatever
    follows [r], be it a fresh entry or a failure of the generator. *)
Theorem C2_time_cutoff (w : World) (ids : list json)
        (pre : list entry) (r : entry) (tail : results) :
  upstream w = results_of_list pre (Yield r tail) ->
  Forall (fun x => utc_now w - 25 * 3600 * 1000000 <= updated x) pre ->
  updated r < utc_now w - 25 * 3600 * 1000000 ->
  fetch_arxiv_updates w ids = Ok (filter (eligible ids) pre) /\
  consumed (time_threshold (utc_now w)) (upstream w) = pre.
Proof.
  intros Hup Hpre Hr.
  change (utc_now w - 25 * 3600 * 1000000) with (time_threshold (utc_now w)) in *.
  split.
  - unfold fetch_arxiv_updates. rewrite Hup.
    now rewrite (fetch_loop_cutoff ids _ pre r tail Hpre Hr).
  - rewrite Hup. clear Hup.
    induction Hpre as [|x pre Hx _ IH]; simpl.
    + destruct (Z.ltb_spec (updated r) (time_threshold (utc_now w))); [reflexivity|lia].
    + destruct (Z.ltb_spec (updated x) (time_threshold (utc_now w))); [lia|].
      now rewrite IH.
Qed.

Lemma C2_time_cutoff_witness :
  fetch_arxiv_updates Samples.w_first [] =
    Ok (filter (eligible []) [Samples.e_cl; Samples.e_math; Samples.e_ai]) /\
  consumed (time_threshold (utc_now Samples.w_first)) (upstream Samples.w_first) =
    [Samples.e_cl; Samples.e_math; Samples.e_ai].
Proof.
  apply (C2_time_cutoff Samples.w_first []
           [Samples.e_cl; Samples.e_math; Samples.e_ai] Samples.e_old
           (Yield Samples.e_late Samples.interrupted)).
  - reflexivity.
  - repeat constructor; vm_compute; discriminate.
  - reflexivity.
Defined.

(** The early exit is not a filter: in [Samples.w_first] the entry
    [e_late] is fresh, unknown and in a target category, but it comes after
    the old entry and is never reached, and neither is the interrupt. *)
Example fetch_stops_at_first_old :
  fetch_arxiv_updates Samples.w_first [] = Ok [Samples.e_cl; Samples.e_ai] /\
  eligible [] Samples.e_late = true /\
  (time_threshold (utc_now Samples.w_first) <=? updated Samples.e_late) = true.
Proof. repeat split. Qed.

(** ** Merge and persist *)

(** C4. With a loaded collection [E] of [n] records and a newly built
    batch [N] of [k] records, the run writes [N ++ E], of length [n + k]. *)
Theorem C4_merge_order (w : World) (E N : list json) :
  get_existing_papers (file w) = JArr E ->
  new_batch w (JArr E) = Ok N ->
  main w = Ok (N ++ E)%list /\
  List.length (N ++ E) = (List.length E + List.length N)%nat.
Proof.
  intros HE HN. split.
  - rewrite main_new_batch, HE, HN. reflexivity.
  - rewrite length_app. lia.
Qed.

Lemma C4_merge_order_witness :
  main Samples.w_known =
    Ok ([Samples.built Samples.w_known 0 Samples.e_cl] ++ [Samples.stored_ai])%list /\
  List.length ([Samples.built Samples.w_known 0 Samples.e_cl] ++ [Samples.stored_ai])
    = (1 + 1)%nat.
Proof.
  apply (C4_merge_order Samples.w_known); reflexivity.
Defined.

(** C6. When the batch is empty, because the upstream fetch raised an
    exception (caught in [main]) or because it returned no entry, the run
    still reaches the write, and what it writes is the loaded collection
    itself: same records, same order, same count. *)
Theorem C6_empty_batch_frame (w : World) (E ids : list json) :
  get_existing_papers (file w) = JArr E ->
  existing_ids_of (JArr E) = Ok ids ->
  (exists e, fetch_arxiv_updates w ids = Raise e /\ is_Exception e = true) \/
  fetch_arxiv_updates w ids = Ok [] ->
  new_batch w (JArr E) = Ok [] /\ main w = Ok E.
Proof.
  intros HE Hids Hfetch.
  assert (Hraw : raw_papers_of w ids = Ok []).
  { unfold raw_papers_of. destruct Hfetch as [(e & -> & ->)| ->]; reflexivity. }
  split.
  - unfold new_batch. rewrite Hids. simpl. rewrite Hraw. reflexivity.
  - exact (main_ok_intro w E ids [] [] HE Hids Hraw eq_refl).
Qed.

Lemma C6_empty_batch_frame_witness :
  new_batch Samples.w_outage (JArr [Samples.stored_ai]) = Ok [] /\
  main Samples.w_outage = Ok [Samples.stored_ai].
Proof.
  apply (C6_empty_batch_frame Samples.w_outage _ [JStr "2401.00001v1"]).
  - reflexivity.
  - reflexivity.
  - left. exists (OtherException "HTTPError"). split; reflexivity.
Defined.

(** ** The loader *)

(** C7, as the code has it.  The loader never raises.  It returns the
    empty sequence when the file is absent and when opening or parsing it
    raises anything at all; when the file parses, it returns the parsed
    value as it is, so the result is a sequence of records exactly when the
    file holds one. *)
Theorem C7_loader_degrade :
  get_existing_papers Absent = JArr [] /\
  (forall e, get_existing_papers (Present (Raise e)) = JArr []) /\
  (forall data, get_existing_papers (Present (Ok data)) = data).
Proof. repeat split. Qed.

(** C7 as stated fails: a file that holds the JSON number 42 parses, is
    not the expected structure, and the loader returns the number, which is
    neither an empty sequence nor a sequence at all. *)
Lemma C7_loader_counterexample :
  get_existing_papers (Present (Ok (JInt 42))) = JInt 42 /\
  forall items, get_existing_papers (Present (Ok (JInt 42))) <> JArr items.
Proof. split; [reflexivity | discriminate]. Qed.

(** ** Deduplication *)

(** Dropping entries keeps their ids distinct. *)
Lemma distinct_ids_filter (keep : entry -> bool) (rs : list entry) :
  NoDup (map paper_id rs) -> NoDup (map paper_id (filter keep rs)).
Proof.
  induction rs as [|r rs IH]; simpl; intros Hnd; [constructor|].
  apply NoDup_cons_iff in Hnd as [Hfresh Hrest].
  destruct (keep r); simpl; [|now apply IH].
  apply NoDup_cons; [|now apply IH].
  rewrite in_map_iff. intros (x & Hx & Hin).
  apply filter_In in Hin as [Hin _].
  apply Hfresh, in_map_iff. now exists x.
Qed.

Lemma NoDup_map_JStr (l : list string) : NoDup l -> NoDup (map JStr l).
Proof.
  induction 1 as [|s l Hnotin _ IH]; simpl; constructor; [|exact IH].
  intros Hin. apply in_map_iff in Hin as (s' & [= ->] & Hin). contradiction.
Qed.

(** The emitted entries have distinct ids when upstream lists each id once. *)
Lemma raw_papers_NoDup (w : World) (ids : list json) (raw : list entry) :
  NoDup (map paper_id (entries (upstream w))) ->
  raw_papers_of w ids = Ok raw ->
  NoDup (map paper_id raw).
Proof.
  intros Hnd H. destruct (raw_papers_filtered _ _ _ H) as [-> | ->]; [constructor|].
  apply distinct_ids_filter.
  destruct (consumed_prefix (time_threshold (utc_now w)) (upstream w)) as [post Hp].
  rewrite Hp, map_app in Hnd. exact (NoDup_app_remove_r _ _ Hnd).
Qed.

(** C1, as the code has it.  In every run, no entry whose id is in the
    loaded id set is emitted by the fetch, so none becomes a new record: the
    new records of a completed run are built one for one from the emitted
    entries, and the ids of the written collection are the ids of those
    entries followed by the loaded ids.  The ids are checked against the
    loaded ones only: the written ids are pairwise distinct when the loaded
    ids are and upstream lists no id twice. *)
Theorem C1_dedup_unique_ids (w : World) (ids : list json) (raw : list entry) :
  raw_papers_of w ids = Ok raw ->
  (forall r, id_in (paper_id r) ids = true -> ~ In r raw) /\
  (forall E final,
     get_existing_papers (file w) = JArr E ->
     existing_ids_of (JArr E) = Ok ids ->
     main w = Ok final ->
     exists batch,
       final = (batch ++ E)%list /\
       Forall2 (fun r obj => exists i, process_one w i r = Ok obj) raw batch /\
       existing_ids_of (JArr final) =
         Ok (map (fun r => JStr (paper_id r)) raw ++ ids)%list /\
       (NoDup ids ->
        NoDup (map paper_id (entries (upstream w))) ->
        NoDup (map (fun r => JStr (paper_id r)) raw ++ ids))).
Proof.
  intros Hraw. split.
  - intros r Hin Hr.
    destruct (raw_papers_emitted _ _ _ _ Hraw Hr) as (_ & _ & Hnew & _). congruence.
  - intros E final HE Hids Hmain.
    apply main_ok_inv in Hmain
      as (E' & ids' & raw' & batch & HE' & Hids' & Hraw' & Hb & ->).
    rewrite HE in HE'. injection HE' as <-.
    rewrite Hids in Hids'. injection Hids' as <-.
    rewrite Hraw in Hraw'. injection Hraw' as <-.
    exists batch. split; [reflexivity|].
    split; [now apply process_Forall2|]. split.
    + unfold existing_ids_of in *. simpl in *.
      apply collect_ids_app; [|exact Hids].
      eapply collect_ids_batch, process_Forall2, Hb.
    + intros Hnd Hup. apply NoDup_app; [|exact Hnd|].
      * rewrite <- (map_map paper_id JStr).
        apply NoDup_map_JStr. eapply raw_papers_NoDup; eassumption.
      * intros a Ha Hin. apply in_map_iff in Ha as (r & <- & Hr).
        destruct (raw_papers_emitted _ _ _ _ Hraw Hr) as (_ & _ & Hnew & _).
        apply id_in_In in Hin. congruence.
Qed.

Lemma C1_dedup_unique_ids_witness :
  (forall r, id_in (paper_id r) [JStr "2401.00001v1"] = true ->
             ~ In r [Samples.e_cl]) /\
  (forall E final,
     get_existing_papers (file Samples.w_known) = JArr E ->
     existing_ids_of (JArr E) = Ok [JStr "2401.00001v1"] ->
     main Samples.w_known = Ok final ->
     exists batch,
       final = (batch ++ E)%list /\
       Forall2 (fun r obj => exists i, process_one Samples.w_known i r = Ok obj)
               [Samples.e_cl] batch /\
       existing_ids_of (JArr final) =
         Ok (map (fun r => JStr (paper_id r)) [Samples.e_cl]
             ++ [JStr "2401.00001v1"])%list /\
       (NoDup [JStr "2401.00001v1"] ->
        NoDup (map paper_id (entries (upstream Samples.w_known))) ->
        NoDup (map (fun r => JStr (paper_id r)) [Samples.e_cl]
               ++ [JStr "2401.00001v1"]))).
Proof.
  apply (C1_dedup_unique_ids Samples.w_known [JStr "2401.00001v1"]
           [Samples.e_cl]).
  reflexivity.
Defined.

(** In [Samples.w_known] the hypotheses of the last part hold, and the run
    writes two records with distinct ids. *)
Example known_run_ids_distinct :
  NoDup [JStr "2401.00001v1"] /\
  NoDup (map paper_id (entries (upstream Samples.w_known))) /\
  existing_ids_of
    (JArr [Samples.built Samples.w_known 0 Samples.e_cl; Samples.stored_ai]) =
    Ok [JStr "2401.00005v1"; JStr "2401.00001v1"].
Proof.
  split; [repeat constructor; intros []|]. split; [|reflexivity].
  repeat constructor; simpl; intros H; repeat destruct H as [H|H];
    try discriminate H; contradiction.
Qed.

(** C1 as stated fails: when upstream lists one fresh entry twice, both
    copies pass the membership test against the loaded ids, and the written
    collection holds two records with the same id. *)
Lemma C1_dedup_counterexample :
  exists final ids,
    main Samples.w_twice = Ok final /\
    existing_ids_of (JArr final) = Ok ids /\
    ids = [JStr "2401.00001v1"; JStr "2401.00001v1"] /\
    ~ NoDup ids.
Proof.
  eexists. eexists. split; [vm_compute; reflexivity|].
  split; [vm_compute; reflexivity|]. split; [reflexivity|].
  intros H. inversion H as [|? ? Hnotin _]. apply Hnotin. now left.
Qed.

(** ** Fields of a built record *)

Lemma paper_obj_tags (r : entry) (ai_res : json) (g : string) (obj : json) :
  paper_obj r ai_res g = Ok obj ->
  get_path ["tags"] obj = Some (JArr (map JStr (tags_of r))).
Proof. intros H. paper_obj_inv H. reflexivity. Qed.

Lemma paper_obj_enrichment (r : entry) (fields : list (string * json))
      (g : string) (obj : json) :
  paper_obj r (JObj fields) g = Ok obj ->
  get_path ["summary"; "innovation"] obj =
    Some (match lookup "innovation" fields with
          | Some v => v
          | None => JStr default_innovation
          end) /\
  get_path ["abstract_zh"] obj =
    Some (match lookup "abstract_zh" fields with
          | Some v => v
          | None => JStr default_abstract_zh
          end).
Proof.
  intros H. paper_obj_inv H.
  simpl in *. repeat match goal with E : Ok _ = Ok _ |- _ => injection E as <- end.
  split; reflexivity.
Qed.

Lemma emitted_has_category (w : World) (ids : list json) (raw : list entry) (r : entry) :
  raw_papers_of w ids = Ok raw -> In r raw -> categories r <> [].
Proof.
  intros H Hin. destruct (raw_papers_emitted _ _ _ _ H Hin) as (_ & _ & _ & Hc).
  intros E. rewrite E in Hc. discriminate.
Qed.

(** ** Category filter *)

Lemma batch_record_source (w : World) (raw : list entry) (batch : list json)
      (obj : json) :
  Forall2 (fun r' o => exists i, process_one w i r' = Ok o) raw batch ->
  In obj batch ->
  exists r' i, In r' raw /\ process_one w i r' = Ok obj.
Proof.
  induction 1 as [|r' o raw batch [i Hp] _ IH]; intros Hin; [destruct Hin|].
  destruct Hin as [<-|Hin].
  - exists r', i. split; [now left | exact Hp].
  - destruct (IH Hin) as (r2 & j & Hr2 & Hp2). exists r2, j. split; [now right|exact Hp2].
Qed.

Lemma process_one_tags (w : World) (i : nat) (r : entry) (obj : json) :
  process_one w i r = Ok obj ->
  get_path ["tags"] obj = Some (JArr (map JStr (tags_of r))).
Proof.
  unfold process_one, bind.
  destruct (ai_process w i (title r) (summary r)); [|discriminate].
  apply paper_obj_tags.
Qed.

(** C5. An entry none of whose categories is a target category is never
    emitted by the fetch, however recent it is, and never becomes a
    persisted record: in a completed run the new records are built one for
    one from the entries the fetch of that run emitted, the entry is not
    among them, and no record built from it is among the new records. *)
Theorem C5_category_filter (w : World) (r : entry) :
  (forall c, In c (categories r) -> ~ In c TARGET_CATEGORIES) ->
  (forall ids out, fetch_arxiv_updates w ids = Ok out -> ~ In r out) /\
  (forall ids raw, raw_papers_of w ids = Ok raw -> ~ In r raw) /\
  (forall final, main w = Ok final ->
     exists E ids raw batch,
       get_existing_papers (file w) = JArr E /\
       existing_ids_of (JArr E) = Ok ids /\
       raw_papers_of w ids = Ok raw /\
       process w raw = Ok batch /\
       final = (batch ++ E)%list /\
       Forall2 (fun r' obj => exists i, process_one w i r' = Ok obj) raw batch /\
       ~ In r raw /\
       (forall i obj, process_one w i r = Ok obj -> ~ In obj batch)).
Proof.
  intros Hdisj.
  assert (Hno : existsb in_target (categories r) = false).
  { destruct (existsb in_target (categories r)) eqn:He; [|reflexivity].
    apply existsb_exists in He as (c & Hc & Ht).
    apply in_target_In in Ht. now destruct (Hdisj c Hc). }
  assert (Hraw_out : forall ids raw, raw_papers_of w ids = Ok raw -> ~ In r raw).
  { intros ids raw Hraw Hin.
    destruct (raw_papers_emitted _ _ _ _ Hraw Hin) as (_ & _ & _ & Hc). congruence. }
  split; [|split; [exact Hraw_out|]].
  - intros ids out Hf Hin.
    destruct (fetch_loop_emitted _ _ _ _ _ Hf Hin) as (_ & _ & _ & Hc). congruence.
  - intros final Hmain.
    apply main_ok_inv in Hmain as (E & ids & raw & batch & HE & Hids & Hraw & Hb & ->).
    pose proof (process_Forall2 w raw batch Hb) as Hbuilt.
    exists E, ids, raw, batch. repeat split; try assumption.
    + exact (Hraw_out ids raw Hraw).
    + intros i obj Hp Hin.
      destruct (batch_record_source w raw batch obj Hbuilt Hin) as (r' & j & Hr' & Hp').
      apply process_one_tags in Hp. apply process_one_tags in Hp'.
      rewrite Hp in Hp'. injection Hp' as Htags.
      unfold tags_of in Htags at 1.
      apply filter_nil_existsb in Hno. rewrite Hno in Htags. simpl in Htags.
      symmetry in Htags. apply map_eq_nil in Htags. unfold tags_of in Htags.
      apply map_eq_nil in Htags. apply filter_nil_existsb in Htags.
      destruct (raw_papers_emitted _ _ _ _ Hraw Hr') as (_ & _ & _ & Hc). congruence.
Qed.

Lemma C5_category_filter_witness :
  (forall ids out, fetch_arxiv_updates Samples.w_first ids = Ok out ->
     ~ In Samples.e_math out) /\
  (forall ids raw, raw_papers_of Samples.w_first ids = Ok raw ->
     ~ In Samples.e_math raw) /\
  (forall final, main Samples.w_first = Ok final ->
     exists E ids raw batch,
       get_existing_papers (file Samples.w_first) = JArr E /\
       existing_ids_of (JArr E) = Ok ids /\
       raw_papers_of Samples.w_first ids = Ok raw /\
       process Samples.w_first raw = Ok batch /\
       final = (batch ++ E)%list /\
       Forall2 (fun r' obj => exists i, process_one Samples.w_first i r' = Ok obj)
               raw batch /\
       ~ In Samples.e_math raw /\
       (forall i obj, process_one Samples.w_first i Samples.e_math = Ok obj ->
                      ~ In obj batch)).
Proof.
  apply (C5_category_filter Samples.w_first Samples.e_math).
  intros c [<-|[]] H. simpl in H.
  repeat destruct H as [H|H]; try discriminate H. exact H.
Defined.

(** ** Tags *)

(** C8. The [tags] of a built record are the entry's categories that lie
    in the target set, in upstream order, each with its prefix, the part up
    to the last dot, removed. *)
Theorem C8_tags_field (r : entry) (ai_res : json) (g : string) (obj : json) :
  paper_obj r ai_res g = Ok obj ->
  get_path ["tags"] obj =
    Some (JArr (map JStr (map strip_prefix (filter in_target (categories r))))) /\
  (forall c, In c (filter in_target (categories r)) <->
             In c (categories r) /\ In c TARGET_CATEGORIES).
Proof.
  intros H. split.
  - rewrite (paper_obj_tags _ _ _ _ H). unfold tags_of.
    do 3 f_equal. apply map_ext. exact split_last_strip_prefix.
  - intros c. rewrite filter_In, in_target_In. reflexivity.
Qed.

Lemma C8_tags_field_witness :
  get_path ["tags"] (Samples.built Samples.w_first 0 Samples.e_cl) =
    Some (JArr (map JStr (map strip_prefix
                 (filter in_target (categories Samples.e_cl))))) /\
  (forall c, In c (filter in_target (categories Samples.e_cl)) <->
             In c (categories Samples.e_cl) /\ In c TARGET_CATEGORIES).
Proof.
  apply (C8_tags_field Samples.e_cl fallback_pair
           (random_choice (draw Samples.w_first 0))).
  reflexivity.
Defined.

Example tags_of_e_cl :
  get_path ["tags"] (Samples.built Samples.w_first 0 Samples.e_cl) =
  Some (JArr [JStr "CL"; JStr "LG"]).
Proof. reflexivity. Qed.

Example tags_of_e_ai :
  get_path ["tags"] (Samples.built Samples.w_first 1 Samples.e_ai) =
  Some (JArr [JStr "AI"]).
Proof. reflexivity. Qed.

(** ** Safety of [r.categories[0]] *)

Lemma collect_ids_raise (items : list json) (e : exn) :
  collect_ids items = Raise e -> e <> IndexError.
Proof.
  induction items as [|p items IH]; simpl; [discriminate|].
  unfold bind. destruct (subscript_id p) as [v|e'] eqn:Hp.
  - destruct (hashable v); [|intros [= <-]; discriminate].
    destruct (collect_ids items); [discriminate|].
    intros [= <-]. now apply IH.
  - intros [= <-]. destruct p; simpl in Hp; try (injection Hp as <-; discriminate).
    destruct (lookup "id" fields); [discriminate|]. injection Hp as <-. discriminate.
Qed.

Lemma existing_ids_raise (data : json) (e : exn) :
  existing_ids_of data = Raise e -> e <> IndexError.
Proof.
  unfold existing_ids_of, bind. destruct (py_iter data) as [items|e'] eqn:Hi.
  - apply collect_ids_raise.
  - intros [= <-]. destruct data; simpl in Hi; try discriminate;
      injection Hi as <-; discriminate.
Qed.

(** No run ends with the [IndexError] of an empty category list. *)
Lemma main_never_IndexError (w : World) : main w <> Raise IndexError.
Proof.
  unfold main, bind. intros H.
  destruct (existing_ids_of (get_existing_papers (file w))) as [ids|e] eqn:Hids.
  2:{ injection H as ->. now apply existing_ids_raise in Hids. }
  destruct (raw_papers_of w ids) as [raw|e] eqn:Hraw.
  2:{ injection H as ->. apply raw_papers_raise in Hraw. discriminate. }
  destruct (process w raw) as [batch|e] eqn:Hb.
  - destruct (get_existing_papers (file w)); simpl in H; discriminate.
  - injection H as ->. rewrite process_eq in Hb.
    apply process_loop_raise in Hb as (k & r & Hr & Hp).
    apply nth_error_In in Hr.
    unfold process_one, bind in Hp.
    destruct (ai_process w (0 + k) (title r) (summary r)) as [ai_res|e] eqn:Ha.
    + apply paper_obj_raise in Hp as [Hp|[_ Hc]]; [discriminate|].
      exact (emitted_has_category _ _ _ _ Hraw Hr Hc).
    + injection Hp as ->. apply ai_process_raise in Ha. discriminate.
Qed.

(** C9. Every entry that reaches the record builder has at least one
    category, so reading its first category succeeds, building its record
    never raises [IndexError], and no run ends with that error. *)
Theorem C9_affiliation_safe (w : World) (ids : list json) (raw : list entry)
        (r : entry) :
  raw_papers_of w ids = Ok raw ->
  In r raw ->
  categories r <> [] /\
  (exists c, subscript0 (categories r) = Ok c /\ In c (categories r)) /\
  (forall ai_res g, paper_obj r ai_res g <> Raise IndexError) /\
  main w <> Raise IndexError.
Proof.
  intros Hraw Hin.
  pose proof (emitted_has_category _ _ _ _ Hraw Hin) as Hc.
  split; [exact Hc|]. split; [|split].
  - destruct (categories r) as [|c cs]; [congruence|].
    exists c. split; [reflexivity | now left].
  - intros ai_res g H. apply paper_obj_raise in H as [H|[_ H]]; [discriminate|].
    contradiction.
  - apply main_never_IndexError.
Qed.

Lemma C9_affiliation_safe_witness :
  categories Samples.e_ai <> [] /\
  (exists c, subscript0 (categories Samples.e_ai) = Ok c /\
             In c (categories Samples.e_ai)) /\
  (forall ai_res g, paper_obj Samples.e_ai ai_res g <> Raise IndexError) /\
  main Samples.w_first <> Raise IndexError.
Proof.
  apply (C9_affiliation_safe Samples.w_first [] [Samples.e_cl; Samples.e_ai]).
  - reflexivity.
  - right. now left.
Defined.

(** The builder does raise on an entry without categories: the safety
    above rests on the filter, not on the builder. *)
Example paper_obj_no_category :
  paper_obj (Samples.mk_entry "2401.00009v1" Samples.cut []) fallback_pair
            (random_choice 0) = Raise IndexError.
Proof. reflexivity. Qed.

(** ** Enrichment *)

Lemma ai_process_fallback (w : World) (i : nat) (t a : string) (e : exn) :
  chat w i (prompt t a) = Raise e -> is_Exception e = true ->
  ai_process w i t a = Ok fallback_pair.
Proof. intros Hc He. unfold ai_process. now rewrite Hc, He. Qed.

(** C3. When the enrichment call made for the [i]-th new paper raises an
    exception, [ai_process] returns the fixed placeholder pair instead of
    raising; and, in a run that has loaded a collection [E] and whose other
    records get built, the run goes on to merge and write, with the record
    of that paper at its place in the written collection, its innovation
    and translation fields holding the two placeholder strings. *)
Theorem C3_enrichment_fallback (w : World) (E ids : list json)
        (raw : list entry) (i : nat) (r : entry) (e : exn) :
  get_existing_papers (file w) = JArr E ->
  existing_ids_of (JArr E) = Ok ids ->
  raw_papers_of w ids = Ok raw ->
  nth_error raw i = Some r ->
  chat w i (prompt (title r) (summary r)) = Raise e ->
  is_Exception e = true ->
  (forall j r', j <> i -> nth_error raw j = Some r' ->
                exists obj, process_one w j r' = Ok obj) ->
  ai_process w i (title r) (summary r) =
    Ok (JObj [("innovation", JStr "AI 总结暂不可用");
              ("abstract_zh", JStr "翻译暂不可用")]) /\
  exists final rec,
    main w = Ok final /\
    List.length final = (List.length raw + List.length E)%nat /\
    nth_error final i = Some rec /\
    paper_obj r fallback_pair (random_choice (draw w i)) = Ok rec /\
    get_path ["summary"; "innovation"] rec = Some (JStr "AI 总结暂不可用") /\
    get_path ["abstract_zh"] rec = Some (JStr "翻译暂不可用").
Proof.
  intros HE Hids Hraw Hr Hchat He Hothers.
  pose proof (ai_process_fallback w i _ _ e Hchat He) as Hai.
  split; [exact Hai|].
  pose proof (emitted_has_category _ _ _ _ Hraw (nth_error_In _ _ Hr)) as Hcat.
  destruct (paper_obj_total r
              [("innovation", JStr fallback_innovation);
               ("abstract_zh", JStr fallback_abstract_zh)]
              (random_choice (draw w i)) Hcat) as [rec Hrec].
  change (JObj _) with fallback_pair in Hrec.
  assert (Hone : process_one w i r = Ok rec).
  { unfold process_one. rewrite Hai. exact Hrec. }
  assert (Hall : forall k r', nth_error raw k = Some r' ->
                   exists obj, process_one w (0 + k) r' = Ok obj).
  { intros k r' Hk. simpl. destruct (Nat.eq_dec k i) as [->|Hne].
    - rewrite Hr in Hk. injection Hk as <-. eauto.
    - now apply Hothers. }
  destruct (process_loop_total w raw 0 [] Hall) as [batch Hb].
  destruct (process_loop_ok w raw 0 [] batch Hb) as (b & Heq & Hlen & Hnth).
  simpl in Heq. subst b.
  rewrite <- process_eq in Hb.
  exists (batch ++ E)%list, rec.
  split; [exact (main_ok_intro w E ids raw batch HE Hids Hraw Hb)|].
  split; [rewrite length_app; lia|].
  destruct (Hnth i r Hr) as (obj & Hobj & Hp). simpl in Hp.
  rewrite Hone in Hp. injection Hp as <-.
  split.
  { rewrite nth_error_app1; [exact Hobj|]. apply nth_error_Some. congruence. }
  split; [exact Hrec|].
  exact (paper_obj_enrichment r _ _ rec Hrec).
Qed.

Lemma C3_enrichment_fallback_witness :
  ai_process Samples.w_first 0 (title Samples.e_cl) (summary Samples.e_cl) =
    Ok (JObj [("innovation", JStr "AI 总结暂不可用");
              ("abstract_zh", JStr "翻译暂不可用")]) /\
  exists final rec,
    main Samples.w_first = Ok final /\
    List.length final = (List.length [Samples.e_cl; Samples.e_ai] + List.length (@nil json))%nat /\
    nth_error final 0 = Some rec /\
    paper_obj Samples.e_cl fallback_pair
              (random_choice (draw Samples.w_first 0)) = Ok rec /\
    get_path ["summary"; "innovation"] rec = Some (JStr "AI 总结暂不可用") /\
    get_path ["abstract_zh"] rec = Some (JStr "翻译暂不可用").
Proof.
  apply (C3_enrichment_fallback Samples.w_first [] []
           [Samples.e_cl; Samples.e_ai] 0 Samples.e_cl
           (OtherException "APIConnectionError")).
  - reflexivity.
  - reflexivity.
  - reflexivity.
  - reflexivity.
  - reflexivity.
  - reflexivity.
  - intros j r' Hj Hr'. destruct j as [|[|j]]; simpl in Hr'.
    + now destruct Hj.
    + injection Hr' as <-. eexists. reflexivity.
    + destruct j; discriminate Hr'.
Defined.

(** An exception that is not an [Exception], such as an interrupt during
    the request, is not caught by [ai_process]. *)
Example ai_process_interrupt :
  ai_process {| file := Absent; utc_now := 0; upstream := Done;
                chat := fun _ _ => Raise (BaseOnly "KeyboardInterrupt");
                draw := fun _ => 0%nat |} 0 "t" "a"
  = Raise (BaseOnly "KeyboardInterrupt").
Proof. reflexivity. Qed.

(** C10, as the code has it.  When the enrichment call made for a new
    paper returns a JSON object, the record is built; a missing
    ["innovation"] key gives the innovation field the default "无总结", a
    missing ["abstract_zh"] key gives the translation field the default
    "无翻译", and the two defaults differ from the placeholders of the
    error path. *)
Theorem C10_missing_key_defaults (w : World) (ids : list json)
        (raw : list entry) (i : nat) (r : entry)
        (fields : list (string * json)) :
  raw_papers_of w ids = Ok raw ->
  nth_error raw i = Some r ->
  chat w i (prompt (title r) (summary r)) = Ok (JObj fields) ->
  exists rec,
    process_one w i r = Ok rec /\
    (lookup "innovation" fields = None ->
       get_path ["summary"; "innovation"] rec = Some (JStr "无总结")) /\
    (lookup "abstract_zh" fields = None ->
       get_path ["abstract_zh"] rec = Some (JStr "无翻译")) /\
    "无总结" <> fallback_innovation /\
    "无翻译" <> fallback_abstract_zh.
Proof.
  intros Hraw Hr Hchat.
  pose proof (emitted_has_category _ _ _ _ Hraw (nth_error_In _ _ Hr)) as Hcat.
  destruct (paper_obj_total r fields (random_choice (draw w i)) Hcat) as [rec Hrec].
  exists rec. split.
  { unfold process_one, ai_process. rewrite Hchat. exact Hrec. }
  destruct (paper_obj_enrichment r _ _ rec Hrec) as [Hinn Habs].
  repeat split.
  - intros Hnone. now rewrite Hinn, Hnone.
  - intros Hnone. now rewrite Habs, Hnone.
  - discriminate.
  - discriminate.
Qed.

Lemma C10_missing_key_defaults_witness :
  exists rec,
    process_one Samples.w_first 1 Samples.e_ai = Ok rec /\
    (lookup "innovation" [] = None ->
       get_path ["summary"; "innovation"] rec = Some (JStr "无总结")) /\
    (lookup "abstract_zh" [] = None ->
       get_path ["abstract_zh"] rec = Some (JStr "无翻译")) /\
    "无总结" <> fallback_innovation /\
    "无翻译" <> fallback_abstract_zh.
Proof.
  apply (C10_missing_key_defaults Samples.w_first []
           [Samples.e_cl; Samples.e_ai] 1 Samples.e_ai []);
    reflexivity.
Defined.

(** C10 as stated fails: a JSON array is valid JSON and has neither key;
    when the service answers with one, [ai_process] returns it, the builder
    raises [AttributeError] on [ai_res.get], no record is built, and the
    run ends before the merge. *)
Lemma C10_missing_key_counterexample :
  ai_process Samples.w_array 0 (title Samples.e_ai) (summary Samples.e_ai) =
    Ok (JArr []) /\
  process_one Samples.w_array 0 Samples.e_ai = Raise AttributeError /\
  main Samples.w_array = Raise AttributeError.
Proof. repeat split. Qed.

(** * Further properties of the script *)

(** ** The fetch *)

(** X1. Whatever [fetch_arxiv_updates] returns is, in upstream order, the
    unknown entries with a target category among the entries yielded before
    the first old one: a known or off-topic entry is passed over without
    stopping the loop, and every returned entry is fresh. *)
Theorem X1_fetch_filters_consumed_prefix (w : World) (ids : list json)
        (out : list entry) :
  fetch_arxiv_updates w ids = Ok out ->
  out = filter (eligible ids)
               (consumed (time_threshold (utc_now w)) (upstream w)) /\
  (exists rest,
     entries (upstream w) =
     (consumed (time_threshold (utc_now w)) (upstream w) ++ rest)%list) /\
  Forall (fun r => fresh (time_threshold (utc_now w)) r = true) out.
Proof.
  intros H. split; [|split].
  - unfold fetch_arxiv_updates in H. now apply fetch_loop_consumed in H.
  - apply consumed_prefix.
  - apply Forall_forall. intros r Hin.
    destruct (fetch_loop_emitted _ _ _ _ _ H Hin) as (_ & Hfresh & _).
    unfold fresh. apply negb_true_iff, Z.ltb_ge. exact Hfresh.
Qed.

Lemma X1_fetch_filters_consumed_prefix_witness :
  [Samples.e_cl] =
    filter (eligible [JStr "2401.00001v1"])
           (consumed (time_threshold (utc_now Samples.w_known))
                     (upstream Samples.w_known)) /\
  (exists rest,
     entries (upstream Samples.w_known) =
     (consumed (time_threshold (utc_now Samples.w_known))
               (upstream Samples.w_known) ++ rest)%list) /\
  Forall (fun r => fresh (time_threshold (utc_now Samples.w_known)) r = true)
         [Samples.e_cl].
Proof.
  apply (X1_fetch_filters_consumed_prefix Samples.w_known [JStr "2401.00001v1"]).
  reflexivity.
Defined.

Lemma descending_tail (r : entry) (rs : list entry) :
  descending (r :: rs) = true -> descending rs = true.
Proof.
  simpl. destruct rs as [|r2 rs]; [reflexivity|].
  intros H. now apply andb_true_iff in H.
Qed.

(** In a descending list that starts with an old entry, all are old. *)
Lemma descending_all_old (threshold : Z) (rs : list entry) :
  forall r, descending (r :: rs) = true -> updated r < threshold ->
            Forall (fun x => fresh threshold x = false) (r :: rs).
Proof.
  induction rs as [|r2 rs IH]; intros r Hd Hr.
  - repeat constructor. unfold fresh. apply negb_false_iff, Z.ltb_lt, Hr.
  - constructor; [unfold fresh; apply negb_false_iff, Z.ltb_lt, Hr|].
    simpl in Hd. apply andb_true_iff in Hd as [Hle Hd].
    apply Z.leb_le in Hle. apply IH; [exact Hd | lia].
Qed.

(** X2. When upstream yields its entries in descending order of update
    and ends normally, the early exit loses nothing: the fetch returns
    exactly the fresh, unknown entries with a target category. *)
Theorem X2_fetch_exact_on_descending (w : World) (ids : list json)
        (rs : list entry) :
  upstream w = results_of_list rs Done ->
  descending rs = true ->
  fetch_arxiv_updates w ids =
  Ok (filter (fun r => fresh (time_threshold (utc_now w)) r && eligible ids r) rs).
Proof.
  intros Hup Hd. unfold fetch_arxiv_updates. rewrite Hup. clear Hup.
  set (thr := time_threshold (utc_now w)).
  enough (G : forall acc, fetch_loop ids thr (results_of_list rs Done) acc =
                Ok (acc ++ filter (fun r => fresh thr r && eligible ids r) rs)%list)
    by exact (G []).
  induction rs as [|r rs IH]; intros acc.
  - simpl. now rewrite app_nil_r.
  - simpl results_of_list. destruct (Z.ltb_spec (updated r) thr) as [Hold|Hnew].
    + rewrite (fetch_loop_break ids thr r _ acc Hold).
      pose proof (descending_all_old thr rs r Hd Hold) as Hall.
      assert (E : filter (fun x => fresh thr x && eligible ids x) (r :: rs) = []).
      { apply filter_nil_existsb. apply not_true_is_false. intros Hex.
        apply existsb_exists in Hex as (x & Hx & Hfx).
        rewrite Forall_forall in Hall. rewrite (Hall x Hx) in Hfx. discriminate. }
      rewrite E. now rewrite app_nil_r.
    + rewrite (fetch_loop_step ids thr r _ acc Hnew).
      rewrite (IH (descending_tail r rs Hd)). simpl filter.
      assert (Hf : fresh thr r = true)
        by (unfold fresh; apply negb_true_iff, Z.ltb_ge, Hnew).
      rewrite Hf. simpl. destruct (eligible ids r); [|reflexivity].
      now rewrite <- app_assoc.
Qed.

Lemma X2_fetch_exact_on_descending_witness :
  fetch_arxiv_updates Samples.w_sorted [JStr "2401.00001v1"] =
  Ok (filter (fun r => fresh (time_threshold (utc_now Samples.w_sorted)) r
                       && eligible [JStr "2401.00001v1"] r)
             [Samples.e_cl; Samples.e_late; Samples.e_math; Samples.e_ai;
              Samples.e_old]).
Proof.
  apply (X2_fetch_exact_on_descending Samples.w_sorted [JStr "2401.00001v1"]);
    reflexivity.
Defined.

Lemma fetch_loop_fails (ids : list json) (threshold : Z) (e : exn)
      (pre : list entry) :
  Forall (fun x => fresh threshold x = true) pre ->
  forall acc, fetch_loop ids threshold (results_of_list pre (Fails e)) acc = Raise e.
Proof.
  induction 1 as [|x pre Hx _ IH]; intros acc; [reflexivity|].
  simpl results_of_list. rewrite fetch_loop_step; [apply IH|].
  unfold fresh in Hx. now apply negb_true_iff, Z.ltb_ge in Hx.
Qed.

(** X3. When the generator fails after it has yielded only fresh
    entries, the entries already gathered are dropped with the failure: an
    [Exception] leaves the run with no new paper, so it writes the loaded
    collection unchanged, and any other exception ends the run. *)
Theorem X3_upstream_failure_drops_partial (w : World) (E ids : list json)
        (pre : list entry) (e : exn) :
  get_existing_papers (file w) = JArr E ->
  existing_ids_of (JArr E) = Ok ids ->
  upstream w = results_of_list pre (Fails e) ->
  Forall (fun x => fresh (time_threshold (utc_now w)) x = true) pre ->
  fetch_arxiv_updates w ids = Raise e /\
  main w = (if is_Exception e then Ok E else Raise e).
Proof.
  intros HE Hids Hup Hpre.
  assert (Hf : fetch_arxiv_updates w ids = Raise e).
  { unfold fetch_arxiv_updates. rewrite Hup. now apply fetch_loop_fails. }
  split; [exact Hf|].
  unfold main. rewrite HE, Hids. simpl. unfold raw_papers_of. rewrite Hf.
  destruct (is_Exception e); reflexivity.
Qed.

Lemma X3_upstream_failure_drops_partial_witness :
  fetch_arxiv_updates Samples.w_broken [JStr "2401.00001v1"] =
    Raise (OtherException "HTTPError") /\
  main Samples.w_broken =
    (if is_Exception (OtherException "HTTPError")
     then Ok [Samples.stored_ai] else Raise (OtherException "HTTPError")).
Proof.
  apply (X3_upstream_failure_drops_partial Samples.w_broken
           [Samples.stored_ai] [JStr "2401.00001v1"]
           [Samples.e_cl; Samples.e_late]).
  - reflexivity.
  - reflexivity.
  - reflexivity.
  - repeat constructor.
Defined.

(** ** Whole runs *)

Lemma written_ids (w : World) (E ids : list json) (raw : list entry)
      (batch : list json) :
  existing_ids_of (JArr E) = Ok ids ->
  process w raw = Ok batch ->
  existing_ids_of (JArr (batch ++ E)) =
  Ok (map (fun r => JStr (paper_id r)) raw ++ ids)%list.
Proof.
  intros Hids Hb. unfold existing_ids_of in *. simpl in *.
  apply collect_ids_app; [|exact Hids].
  eapply collect_ids_batch, process_Forall2, Hb.
Qed.

Lemma process_records (w : World) (raw : list entry) (batch : list json) :
  process w raw = Ok batch -> forallb is_record batch = true.
Proof.
  intros Hb. apply process_Forall2 in Hb.
  induction Hb as [|r obj raw batch [i Hp] _ IH]; [reflexivity|].
  simpl. destruct (process_one_id _ _ _ _ Hp) as [_ ->]. exact IH.
Qed.

(** X4. What a run writes can be loaded by the next one.  The id set of
    the written collection is built without error: it is the ids of the
    emitted entries, in upstream order, followed by the loaded ids.  The new
    records are PaperRecord-shaped, so a collection of such records stays
    one. *)
Theorem X4_written_collection_loadable (w : World) (final : list json) :
  main w = Ok final ->
  exists E ids raw,
    get_existing_papers (file w) = JArr E /\
    existing_ids_of (JArr E) = Ok ids /\
    raw_papers_of w ids = Ok raw /\
    List.length final = (List.length raw + List.length E)%nat /\
    existing_ids_of (JArr final) =
      Ok (map (fun r => JStr (paper_id r)) raw ++ ids)%list /\
    (forallb is_record E = true -> forallb is_record final = true).
Proof.
  intros H.
  apply main_ok_inv in H as (E & ids & raw & batch & HE & Hids & Hraw & Hb & ->).
  exists E, ids, raw. repeat split; try assumption.
  - rewrite length_app. rewrite process_eq in Hb.
    apply process_loop_ok in Hb as (b & Hb & Hlen & _). simpl in Hb. subst b. lia.
  - now apply (written_ids w).
  - intros HrE. rewrite forallb_app, HrE, (process_records w raw batch Hb).
    reflexivity.
Qed.

Lemma X4_written_collection_loadable_witness :
  exists E ids raw,
    get_existing_papers (file Samples.w_known) = JArr E /\
    existing_ids_of (JArr E) = Ok ids /\
    raw_papers_of Samples.w_known ids = Ok raw /\
    List.length [Samples.built Samples.w_known 0 Samples.e_cl; Samples.stored_ai]
      = (List.length raw + List.length E)%nat /\
    existing_ids_of
      (JArr [Samples.built Samples.w_known 0 Samples.e_cl; Samples.stored_ai]) =
      Ok (map (fun r => JStr (paper_id r)) raw ++ ids)%list /\
    (forallb is_record E = true ->
     forallb is_record
       [Samples.built Samples.w_known 0 Samples.e_cl; Samples.stored_ai] = true).
Proof.
  apply (X4_written_collection_loadable Samples.w_known). reflexivity.
Defined.

(** A later fetch over the same generator, against ids that cover every
    entry the earlier fetch kept examining, finds nothing. *)
Lemma fetch_loop_again (ids1 ids2 : list json) (thr1 thr2 : Z) (g : results) :
  thr1 <= thr2 ->
  forall acc1 out1 acc2,
    fetch_loop ids1 thr1 g acc1 = Ok out1 ->
    (forall r, In r (consumed thr1 g) -> eligible ids2 r = false) ->
    fetch_loop ids2 thr2 g acc2 = Ok acc2.
Proof.
  intros Hthr. induction g as [|r rest IH|e]; intros acc1 out1 acc2 H1 Hcov.
  - reflexivity.
  - destruct (Z.ltb_spec (updated r) thr2) as [Hold|Hnew].
    + now apply fetch_loop_break.
    + assert (Hnew1 : thr1 <= updated r) by lia.
      rewrite (fetch_loop_step ids1 thr1 r rest acc1 Hnew1) in H1.
      rewrite (fetch_loop_step ids2 thr2 r rest acc2 Hnew).
      assert (Hc : consumed thr1 (Yield r rest) = r :: consumed thr1 rest).
      { simpl. destruct (Z.ltb_spec (updated r) thr1); [lia|reflexivity]. }
      rewrite Hc in Hcov. rewrite (Hcov r (or_introl eq_refl)).
      eapply IH; [exact H1|]. intros x Hx. apply Hcov. now right.
  - discriminate.
Qed.

Lemma id_in_app (pid : string) (a b : list json) :
  id_in pid (a ++ b) = id_in pid a || id_in pid b.
Proof. unfold id_in. apply existsb_app. Qed.

(** X5. Running again on the file a run wrote changes nothing.  If the
    first run's fetch returned normally and the second run starts no
    earlier, sees the same upstream results and loads what the first run
    wrote, then every entry it examines is known or off-topic, its batch is
    empty, and it writes the same collection again, whatever the chat
    service and the random draws would have given. *)
Theorem X5_rerun_is_idempotent (w1 w2 : World) (ids1 : list json)
        (raw1 : list entry) (final1 : list json) :
  existing_ids_of (get_existing_papers (file w1)) = Ok ids1 ->
  fetch_arxiv_updates w1 ids1 = Ok raw1 ->
  main w1 = Ok final1 ->
  file w2 = Present (Ok (JArr final1)) ->
  upstream w2 = upstream w1 ->
  utc_now w1 <= utc_now w2 ->
  new_batch w2 (JArr final1) = Ok [] /\ main w2 = Ok final1.
Proof.
  intros Hids1 Hfetch1 Hmain1 Hfile2 Hup2 Hnow.
  apply main_ok_inv in Hmain1
    as (E & ids & raw & batch & HE & Hids & Hraw & Hb & ->).
  rewrite HE, Hids in Hids1. injection Hids1 as ->.
  unfold raw_papers_of in Hraw. rewrite Hfetch1 in Hraw. injection Hraw as ->.
  pose proof (written_ids w1 E ids1 raw batch Hids Hb) as Hids2.
  set (ids2 := (map (fun r => JStr (paper_id r)) raw ++ ids1)%list) in *.
  assert (Hfetch2 : fetch_arxiv_updates w2 ids2 = Ok []).
  { unfold fetch_arxiv_updates in *. rewrite Hup2.
    eapply (fetch_loop_again ids1 ids2); [|exact Hfetch1|].
    - unfold time_threshold. lia.
    - intros r Hr. apply fetch_loop_consumed in Hfetch1. simpl in Hfetch1.
      unfold eligible, ids2. rewrite id_in_app.
      destruct (id_in (paper_id r) ids1) eqn:Hknown;
        [now rewrite orb_true_r|].
      destruct (existsb in_target (categories r)) eqn:Hcat;
        [|now rewrite andb_false_r].
      assert (Hin : In r raw).
      { rewrite Hfetch1. apply filter_In. split; [exact Hr|].
        unfold eligible. now rewrite Hknown, Hcat. }
      assert (Hid : id_in (paper_id r) (map (fun r => JStr (paper_id r)) raw) = true).
      { apply id_in_In. apply in_map_iff. now exists r. }
      now rewrite Hid. }
  assert (Hraw2 : raw_papers_of w2 ids2 = Ok []).
  { unfold raw_papers_of. now rewrite Hfetch2. }
  assert (HE2 : get_existing_papers (file w2) = JArr (batch ++ E)).
  { now rewrite Hfile2. }
  split.
  - unfold new_batch. rewrite Hids2. simpl. rewrite Hraw2. reflexivity.
  - exact (main_ok_intro w2 (batch ++ E) ids2 [] [] HE2 Hids2 Hraw2 eq_refl).
Qed.

Lemma X5_rerun_is_idempotent_witness :
  new_batch Samples.w_rerun
    (JArr [Samples.built Samples.w_known 0 Samples.e_cl; Samples.stored_ai])
    = Ok [] /\
  main Samples.w_rerun =
    Ok [Samples.built Samples.w_known 0 Samples.e_cl; Samples.stored_ai].
Proof.
  apply (X5_rerun_is_idempotent Samples.w_known Samples.w_rerun
           [JStr "2401.00001v1"] [Samples.e_cl]).
  - reflexivity.
  - reflexivity.
  - reflexivity.
  - reflexivity.
  - reflexivity.
  - vm_compute. discriminate.
Defined.

(** X6. A first run, with no file or with one that cannot be opened or
    parsed, starts from an empty id set: the fetch skips no entry as known,
    and what the run writes holds exactly one record for each emitted entry
    and nothing else. *)
Theorem X6_bootstrap (w : World) (final : list json) :
  file w = Absent \/ (exists e, file w = Present (Raise e)) ->
  main w = Ok final ->
  exists raw,
    raw_papers_of w [] = Ok raw /\
    (forall r, eligible [] r = existsb in_target (categories r)) /\
    List.length final = List.length raw /\
    Forall2 (fun r obj => exists i, process_one w i r = Ok obj) raw final.
Proof.
  intros Hfile Hmain.
  assert (HE : get_existing_papers (file w) = JArr []).
  { destruct Hfile as [-> | [e ->]]; reflexivity. }
  apply main_ok_inv in Hmain as (E & ids & raw & batch & HE' & Hids & Hraw & Hb & ->).
  rewrite HE in HE'. injection HE' as <-.
  injection Hids as <-. rewrite app_nil_r.
  exists raw. repeat split; try assumption.
  - apply process_Forall2 in Hb. symmetry. exact (Forall2_length Hb).
  - now apply process_Forall2.
Qed.

Lemma X6_bootstrap_witness :
  exists raw,
    raw_papers_of Samples.w_first [] = Ok raw /\
    (forall r, eligible [] r = existsb in_target (categories r)) /\
    List.length [Samples.built Samples.w_first 0 Samples.e_cl;
                 Samples.built Samples.w_first 1 Samples.e_ai]
      = List.length raw /\
    Forall2 (fun r obj => exists i, process_one Samples.w_first i r = Ok obj) raw
            [Samples.built Samples.w_first 0 Samples.e_cl;
             Samples.built Samples.w_first 1 Samples.e_ai].
Proof.
  apply (X6_bootstrap Samples.w_first).
  - now left.
  - reflexivity.
Defined.

(** ** How a run can end *)

Lemma collect_ids_raise_kind (items : list json) (e : exn) :
  collect_ids items = Raise e -> e = TypeError \/ e = KeyError "id".
Proof.
  induction items as [|p items IH]; simpl; [discriminate|].
  unfold bind. destruct (subscript_id p) as [v|e'] eqn:Hp.
  - destruct (hashable v); [|intros [= <-]; now left].
    destruct (collect_ids items); [discriminate|].
    intros [= <-]. now apply IH.
  - intros [= <-]. destruct p; simpl in Hp; try (injection Hp as <-; now left).
    destruct (lookup "id" fields); [discriminate|]. injection Hp as <-. now right.
Qed.

Lemma existing_ids_raise_kind (data : json) (e : exn) :
  existing_ids_of data = Raise e -> e = TypeError \/ e = KeyError "id".
Proof.
  unfold existing_ids_of, bind. destruct (py_iter data) as [items|e'] eqn:Hi.
  - apply collect_ids_raise_kind.
  - intros [= <-]. destruct data; simpl in Hi; try discriminate;
      injection Hi as <-; now left.
Qed.

Lemma process_one_raise (w : World) (i : nat) (r : entry) (e : exn) :
  categories r <> [] ->
  process_one w i r = Raise e ->
  (chat w i (prompt (title r) (summary r)) = Raise e /\ is_Exception e = false) \/
  (e = AttributeError /\
   exists answer, chat w i (prompt (title r) (summary r)) = Ok answer /\
                  forall fields, answer <> JObj fields).
Proof.
  intros Hcat. unfold process_one, ai_process, bind.
  destruct (chat w i (prompt (title r) (summary r))) as [answer|e'].
  - intros Hp. right. apply paper_obj_raise in Hp as Hkind.
    destruct Hkind as [->|[_ Hc]]; [|contradiction].
    split; [reflexivity|]. exists answer. split; [reflexivity|].
    intros fields ->.
    destruct (paper_obj_total r fields (random_choice (draw w i)) Hcat) as [obj Hobj].
    congruence.
  - destruct (is_Exception e') eqn:He.
    + intros Hp. right. apply paper_obj_raise in Hp as Hkind.
      destruct Hkind as [->|[_ Hc]]; [|contradiction].
      destruct (paper_obj_total r
                  [("innovation", JStr fallback_innovation);
                   ("abstract_zh", JStr fallback_abstract_zh)]
                  (random_choice (draw w i)) Hcat) as [obj Hobj].
      change (JObj _) with fallback_pair in Hobj. congruence.
    + intros [= <-]. now left.
Qed.

(** X7. A run that does not reach the write ends in one of five ways, each
    with its cause:
    - building the id set raises [TypeError] or [KeyError] on ["id"],
      because the loaded value is not an array of dicts with hashable ids;
    - the fetch raises an exception that is not an [Exception];
    - an enrichment request raises an exception that is not an
      [Exception];
    - an enrichment request is answered with a value that is not an
      object, and the builder raises [AttributeError];
    - the batch is built and the merge raises [TypeError], because the
      loaded value is not an array.
    An [Exception] raised by the fetch leaves the run with no new paper, and
    one raised by an enrichment request leaves it with the fallback pair:
    neither ends the run. *)
Theorem X7_abort_taxonomy (w : World) :
  (forall e, main w = Raise e ->
     (existing_ids_of (get_existing_papers (file w)) = Raise e /\
      (e = TypeError \/ e = KeyError "id")) \/
     (exists ids,
        existing_ids_of (get_existing_papers (file w)) = Ok ids /\
        ((fetch_arxiv_updates w ids = Raise e /\ is_Exception e = false) \/
         (exists raw,
            raw_papers_of w ids = Ok raw /\
            ((exists i r,
                nth_error raw i = Some r /\
                ((chat w i (prompt (title r) (summary r)) = Raise e /\
                  is_Exception e = false) \/
                 (e = AttributeError /\
                  exists answer,
                    chat w i (prompt (title r) (summary r)) = Ok answer /\
                    forall fields, answer <> JObj fields))) \/
             (exists batch,
                process w raw = Ok batch /\
                e = TypeError /\
                forall E, get_existing_papers (file w) <> JArr E)))))) /\
  (forall ids e,
     fetch_arxiv_updates w ids = Raise e -> is_Exception e = true ->
     raw_papers_of w ids = Ok []) /\
  (forall i title abstract e,
     chat w i (prompt title abstract) = Raise e -> is_Exception e = true ->
     ai_process w i title abstract = Ok fallback_pair).
Proof.
  split; [|split].
  - intros e H. unfold main, bind in H.
    destruct (existing_ids_of (get_existing_papers (file w))) as [ids|e0] eqn:Hids.
    2:{ injection H as ->. left. split; [reflexivity|].
        now apply existing_ids_raise_kind in Hids. }
    right. exists ids. split; [reflexivity|].
    destruct (raw_papers_of w ids) as [raw|e0] eqn:Hraw.
    2:{ injection H as ->. left. pose proof (raw_papers_raise _ _ _ Hraw) as Hne.
        split; [|exact Hne]. unfold raw_papers_of in Hraw.
        destruct (fetch_arxiv_updates w ids) as [|e']; [discriminate|].
        destruct (is_Exception e'); [discriminate|]. now injection Hraw as ->. }
    right. exists raw. split; [reflexivity|].
    destruct (process w raw) as [batch|e0] eqn:Hb.
    + right. exists batch. split; [reflexivity|].
      destruct (get_existing_papers (file w)); simpl in H;
        try discriminate; injection H as <-; split; try reflexivity;
        intros E; discriminate.
    + injection H as ->. left. rewrite process_eq in Hb.
      apply process_loop_raise in Hb as (k & r & Hr & Hp). simpl in Hp.
      exists k, r. split; [exact Hr|].
      apply process_one_raise; [|exact Hp].
      exact (emitted_has_category _ _ _ _ Hraw (nth_error_In _ _ Hr)).
  - intros ids e Hf He. unfold raw_papers_of. now rewrite Hf, He.
  - intros i t a e Hc He. now apply (ai_process_fallback w i t a e).
Qed.

Lemma X7_abort_taxonomy_witness :
  (existing_ids_of (get_existing_papers (file Samples.w_array))
     = Raise AttributeError /\
   (AttributeError = TypeError \/ AttributeError = KeyError "id")) \/
  (exists ids,
     existing_ids_of (get_existing_papers (file Samples.w_array)) = Ok ids /\
     ((fetch_arxiv_updates Samples.w_array ids = Raise AttributeError /\
       is_Exception AttributeError = false) \/
      (exists raw,
         raw_papers_of Samples.w_array ids = Ok raw /\
         ((exists i r,
             nth_error raw i = Some r /\
             ((chat Samples.w_array i (prompt (title r) (summary r))
                 = Raise AttributeError /\
               is_Exception AttributeError = false) \/
              (AttributeError = AttributeError /\
               exists answer,
                 chat Samples.w_array i (prompt (title r) (summary r)) = Ok answer /\
                 forall fields, answer <> JObj fields))) \/
          (exists batch,
             process Samples.w_array raw = Ok batch /\
             AttributeError = TypeError /\
             forall E, get_existing_papers (file Samples.w_array) <> JArr E))))).
Proof.
  apply (proj1 (X7_abort_taxonomy Samples.w_array) AttributeError).
  reflexivity.
Defined.

Lemma process_one_usable (w : World) (i : nat) (r : entry) :
  categories r <> [] ->
  (exists obj, process_one w i r = Ok obj) <->
  usable_answer (chat w i (prompt (title r) (summary r))) = true.
Proof.
  intros Hcat. unfold process_one, ai_process, usable_answer, bind.
  destruct (chat w i (prompt (title r) (summary r))) as [res|e].
  - destruct res; try (split; [intros [obj H]; discriminate H | discriminate]).
    split; [reflexivity|]. intros _. now apply paper_obj_total.
  - destruct (is_Exception e).
    + split; [reflexivity|]. intros _. now apply paper_obj_total.
    + split; [intros [obj H]; discriminate H | discriminate].
Qed.

(** X8. Once the collection is loaded and the fetch is over, the run
    reaches the write exactly when every enrichment request it makes either
    raises an [Exception] or is answered with a JSON object. *)
Theorem X8_run_completes_iff_answers_usable (w : World) (E ids : list json)
        (raw : list entry) :
  get_existing_papers (file w) = JArr E ->
  existing_ids_of (JArr E) = Ok ids ->
  raw_papers_of w ids = Ok raw ->
  (exists final, main w = Ok final) <->
  (forall i r, nth_error raw i = Some r ->
     usable_answer (chat w i (prompt (title r) (summary r))) = true).
Proof.
  intros HE Hids Hraw. split.
  - intros [final Hmain] i r Hr.
    apply main_ok_inv in Hmain as (E' & ids' & raw' & batch & HE' & Hids' & Hraw' & Hb & _).
    rewrite HE in HE'. injection HE' as <-.
    rewrite Hids in Hids'. injection Hids' as <-.
    rewrite Hraw in Hraw'. injection Hraw' as <-.
    rewrite process_eq in Hb.
    apply process_loop_ok in Hb as (b & _ & _ & Hnth).
    destruct (Hnth i r Hr) as (obj & _ & Hp). simpl in Hp.
    apply process_one_usable; [|eauto].
    exact (emitted_has_category _ _ _ _ Hraw (nth_error_In _ _ Hr)).
  - intros Hall.
    assert (Hsteps : forall k r, nth_error raw k = Some r ->
                       exists obj, process_one w (0 + k) r = Ok obj).
    { intros k r Hr. simpl. apply process_one_usable; [|now apply Hall].
      exact (emitted_has_category _ _ _ _ Hraw (nth_error_In _ _ Hr)). }
    destruct (process_loop_total w raw 0 [] Hsteps) as [batch Hb].
    rewrite <- process_eq in Hb.
    exists (batch ++ E)%list. exact (main_ok_intro w E ids raw batch HE Hids Hraw Hb).
Qed.

Lemma X8_run_completes_iff_answers_usable_witness :
  (exists final, main Samples.w_first = Ok final) <->
  (forall i r, nth_error [Samples.e_cl; Samples.e_ai] i = Some r ->
     usable_answer (chat Samples.w_first i (prompt (title r) (summary r))) = true).
Proof.
  apply (X8_run_completes_iff_answers_usable Samples.w_first [] []);
    reflexivity.
Defined.

(** X9. A file that parses to something other than an array never gets
    overwritten: the run ends before the write.  Unless the value is the
    empty object or the empty string, it ends with a [TypeError] while the
    id set is built, before upstream or the chat service is asked
    anything. *)
Theorem X9_non_array_file_aborts (w : World) :
  (forall E, get_existing_papers (file w) <> JArr E) ->
  (forall final, main w <> Ok final) /\
  (get_existing_papers (file w) <> JObj [] ->
   get_existing_papers (file w) <> JStr EmptyString ->
   existing_ids_of (get_existing_papers (file w)) = Raise TypeError /\
   main w = Raise TypeError).
Proof.
  intros Hshape. split.
  - intros final H. apply main_ok_inv in H as (E & _ & _ & _ & HE & _).
    exact (Hshape E HE).
  - intros Hobj Hstr. unfold main.
    destruct (get_existing_papers (file w)) as [| | | |s|items|fields];
      try (split; reflexivity).
    + destruct s; [congruence | split; reflexivity].
    + now destruct (Hshape items).
    + destruct fields as [|[k v] fields]; [congruence | split; reflexivity].
Qed.

Lemma X9_non_array_file_aborts_witness :
  (forall final, main Samples.w_number <> Ok final) /\
  (get_existing_papers (file Samples.w_number) <> JObj [] ->
   get_existing_papers (file Samples.w_number) <> JStr EmptyString ->
   existing_ids_of (get_existing_papers (file Samples.w_number)) = Raise TypeError /\
   main Samples.w_number = Raise TypeError).
Proof.
  apply (X9_non_array_file_aborts Samples.w_number).
  intros E. discriminate.
Defined.

(** ** Splitting and joining *)

Lemma contains_cons (c d : ascii) (s : string) :
  contains c (String d s) = Ascii.eqb c d || contains c s.
Proof. reflexivity. Qed.

(** No piece of a split holds the separator. *)
Lemma split_pieces_clean (sep : ascii) (s : string) :
  Forall (fun piece => contains sep piece = false) (split sep s).
Proof.
  induction s as [|c s IH]; simpl; [repeat constructor|].
  destruct (Ascii.eqb c sep) eqn:Hc; [now constructor|].
  destruct (split sep s) as [|x xs]; [repeat constructor|].
  - rewrite contains_cons, Ascii.eqb_sym, Hc. reflexivity.
  - inversion IH as [|? ? Hx Hxs]; subst. constructor; [|exact Hxs].
    rewrite contains_cons, Ascii.eqb_sym, Hc. exact Hx.
Qed.

Lemma join_cons_cons (sep x y : string) (rest : list string) :
  join sep (x :: y :: rest) = x ++ sep ++ join sep (y :: rest).
Proof. reflexivity. Qed.

Lemma join_split (sep : ascii) (s : string) :
  join (String sep EmptyString) (split sep s) = s.
Proof.
  induction s as [|c s IH]; [reflexivity|].
  simpl split. destruct (Ascii.eqb_spec c sep) as [->|Hne].
  - destruct (split sep s) as [|x xs] eqn:Hs; [now apply split_nonempty in Hs|].
    rewrite join_cons_cons, IH. reflexivity.
  - destruct (split sep s) as [|x xs] eqn:Hs; [now apply split_nonempty in Hs|].
    destruct xs as [|y ys].
    + simpl in *. now rewrite IH.
    + rewrite join_cons_cons. rewrite join_cons_cons in IH.
      rewrite <- IH. reflexivity.
Qed.

(** X10. Joining the pieces of a split with the separator gives the
    string back, and no piece holds the separator: [split] loses nothing
    of an entry URL or of a category name. *)
Theorem X10_join_split_round_trip (sep : ascii) (s : string) :
  join (String sep EmptyString) (split sep s) = s /\
  Forall (fun piece => contains sep piece = false) (split sep s).
Proof. split; [apply join_split | apply split_pieces_clean]. Qed.

Lemma append_assoc_string (a b c : string) : (a ++ b) ++ c = a ++ (b ++ c).
Proof. induction a as [|ch a IH]; simpl; [reflexivity | now rewrite IH]. Qed.

Lemma join_ends_with_last (sep : string) (parts : list string) :
  exists before, join sep parts = before ++ last parts EmptyString.
Proof.
  induction parts as [|x parts [before IH]]; [now exists EmptyString|].
  destruct parts as [|y parts]; [now exists EmptyString|].
  rewrite join_cons_cons, IH. exists (x ++ sep ++ before).
  change (last (x :: y :: parts) EmptyString) with (last (y :: parts) EmptyString).
  now rewrite !append_assoc_string.
Qed.

Lemma split_last_suffix (sep : ascii) (s : string) :
  exists before, s = before ++ split_last sep s.
Proof.
  destruct (join_ends_with_last (String sep EmptyString) (split sep s)) as [b Hb].
  exists b. unfold split_last. rewrite <- Hb.
  symmetry. apply join_split.
Qed.

Lemma last_piece_In (parts : list string) :
  parts <> [] -> In (last parts EmptyString) parts.
Proof.
  induction parts as [|x parts IH]; [congruence|]. intros _.
  destruct parts as [|y parts]; [now left|]. right. apply IH. discriminate.
Qed.

Lemma split_no_sep (sep : ascii) (s : string) :
  contains sep s = false -> split sep s = [s].
Proof.
  induction s as [|c s IH]; intros H; [reflexivity|].
  rewrite contains_cons in H. apply orb_false_iff in H as [Hc Hs].
  simpl. rewrite Ascii.eqb_sym, Hc, (IH Hs). reflexivity.
Qed.

Lemma split_last_clean (sep : ascii) (s : string) :
  contains sep (split_last sep s) = false.
Proof.
  unfold split_last.
  pose proof (split_pieces_clean sep s) as Hall. rewrite Forall_forall in Hall.
  apply Hall, last_piece_In, split_nonempty.
Qed.

(** ** Fields of a built record, continued *)

(** X11. The id of a built record is the part of the entry URL after its
    last slash: it holds no slash, the URL ends with it, and a URL without
    any slash is taken whole. *)
Theorem X11_record_id_is_url_tail (r : entry) (ai_res : json) (g : string)
        (obj : json) :
  paper_obj r ai_res g = Ok obj ->
  get_path ["id"] obj = Some (JStr (paper_id r)) /\
  contains "/" (paper_id r) = false /\
  (exists before, entry_id r = before ++ paper_id r) /\
  (contains "/" (entry_id r) = false -> paper_id r = entry_id r).
Proof.
  intros H. split; [paper_obj_inv H; reflexivity|]. unfold paper_id.
  split; [apply split_last_clean|]. split; [apply split_last_suffix|].
  intros Hno. unfold split_last. now rewrite (split_no_sep _ _ Hno).
Qed.

Lemma X11_record_id_is_url_tail_witness :
  get_path ["id"] (Samples.built Samples.w_first 0 Samples.e_cl) =
    Some (JStr (paper_id Samples.e_cl)) /\
  contains "/" (paper_id Samples.e_cl) = false /\
  (exists before, entry_id Samples.e_cl = before ++ paper_id Samples.e_cl) /\
  (contains "/" (entry_id Samples.e_cl) = false ->
   paper_id Samples.e_cl = entry_id Samples.e_cl).
Proof.
  apply (X11_record_id_is_url_tail Samples.e_cl fallback_pair
           (random_choice (draw Samples.w_first 0))).
  reflexivity.
Defined.

Lemma target_tag (c : string) :
  In c TARGET_CATEGORIES -> In (split_last "." c) TARGET_TAGS.
Proof.
  intros H. simpl in H.
  repeat destruct H as [<-|H]; try contradiction; vm_compute; tauto.
Qed.

(** X12. The tags of a record built in a run are never empty, there are
    no more of them than the entry has categories, and each is one of
    AI, CL, LG and CV. *)
Theorem X12_tags_are_target_tags (w : World) (ids : list json)
        (raw : list entry) (i : nat) (r : entry) (obj : json) :
  raw_papers_of w ids = Ok raw ->
  In r raw ->
  process_one w i r = Ok obj ->
  exists tags,
    get_path ["tags"] obj = Some (JArr (map JStr tags)) /\
    tags <> [] /\
    (List.length tags <= List.length (categories r))%nat /\
    Forall (fun t => In t TARGET_TAGS) tags.
Proof.
  intros Hraw Hin Hp. exists (tags_of r).
  unfold process_one, bind in Hp.
  destruct (ai_process w i (title r) (summary r)) as [ai_res|]; [|discriminate].
  split; [exact (paper_obj_tags _ _ _ _ Hp)|]. unfold tags_of.
  split; [|split].
  - destruct (raw_papers_emitted _ _ _ _ Hraw Hin) as (_ & _ & _ & Hc).
    intros Hnil. apply map_eq_nil in Hnil. apply filter_nil_existsb in Hnil.
    congruence.
  - rewrite length_map. apply filter_length_le.
  - apply Forall_forall. intros t Ht.
    apply in_map_iff in Ht as (c & <- & Hc).
    apply filter_In in Hc as [_ Hc]. apply target_tag, in_target_In, Hc.
Qed.

Lemma X12_tags_are_target_tags_witness :
  exists tags,
    get_path ["tags"] (Samples.built Samples.w_first 1 Samples.e_ai) =
      Some (JArr (map JStr tags)) /\
    tags <> [] /\
    (List.length tags <= List.length (categories Samples.e_ai))%nat /\
    Forall (fun t => In t TARGET_TAGS) tags.
Proof.
  apply (X12_tags_are_target_tags Samples.w_first []
           [Samples.e_cl; Samples.e_ai] 1 Samples.e_ai).
  - reflexivity.
  - right. now left.
  - reflexivity.
Defined.

Lemma replace_char_length (old new : ascii) (s : string) :
  String.length (replace_char old new s) = String.length s.
Proof. induction s as [|c s IH]; simpl; [reflexivity | now rewrite IH]. Qed.

Lemma replace_char_clean (old new : ascii) (s : string) :
  old <> new -> contains old (replace_char old new s) = false.
Proof.
  intros Hne. induction s as [|c s IH]; [reflexivity|].
  simpl replace_char. rewrite contains_cons, IH, orb_false_r.
  destruct (Ascii.eqb_spec c old) as [->|Hc].
  - now apply Ascii.eqb_neq.
  - apply Ascii.eqb_neq. congruence.
Qed.

Lemma replace_char_absent (old new : ascii) (s : string) :
  contains old s = false -> replace_char old new s = s.
Proof.
  induction s as [|c s IH]; intros H; [reflexivity|].
  rewrite contains_cons in H. apply orb_false_iff in H as [Hc Hs].
  simpl. rewrite Ascii.eqb_sym, Hc, (IH Hs). reflexivity.
Qed.

Lemma replace_char_get (old new : ascii) (s : string) :
  forall n,
    String.get n (replace_char old new s) =
    match String.get n s with
    | Some c => Some (if Ascii.eqb c old then new else c)
    | None => None
    end.
Proof.
  induction s as [|c s IH]; intros n; [reflexivity|].
  destruct n as [|n]; simpl; [reflexivity | apply IH].
Qed.

(** X13. The title and the English abstract of a built record are the
    entry's title and summary with every newline replaced by a space and
    every other character kept in place: at each position a newline of the
    original reads as a space and any other character as itself.  So they
    hold no newline, have the length of the original, and are the original
    itself when it has no newline. *)
Theorem X13_text_fields_single_line (r : entry) (ai_res : json) (g : string)
        (obj : json) :
  paper_obj r ai_res g = Ok obj ->
  exists t a,
    get_path ["orig_title"] obj = Some (JStr t) /\
    get_path ["abstract_en"] obj = Some (JStr a) /\
    (forall n, String.get n t =
               match String.get n (title r) with
               | Some c => Some (if Ascii.eqb c newline then " "%char else c)
               | None => None
               end) /\
    (forall n, String.get n a =
               match String.get n (summary r) with
               | Some c => Some (if Ascii.eqb c newline then " "%char else c)
               | None => None
               end) /\
    contains newline t = false /\ contains newline a = false /\
    String.length t = String.length (title r) /\
    String.length a = String.length (summary r) /\
    (contains newline (title r) = false -> t = title r) /\
    (contains newline (summary r) = false -> a = summary r).
Proof.
  intros H.
  exists (replace_char newline " " (title r)), (replace_char newline " " (summary r)).
  split; [paper_obj_inv H; reflexivity|].
  split; [paper_obj_inv H; reflexivity|].
  split; [apply replace_char_get|]. split; [apply replace_char_get|].
  repeat split;
    try (apply replace_char_clean; discriminate);
    try apply replace_char_length; apply replace_char_absent.
Qed.

Lemma X13_text_fields_single_line_witness :
  exists t a,
    get_path ["orig_title"] (Samples.built Samples.w_first 0 Samples.e_cl)
      = Some (JStr t) /\
    get_path ["abstract_en"] (Samples.built Samples.w_first 0 Samples.e_cl)
      = Some (JStr a) /\
    (forall n, String.get n t =
               match String.get n (title Samples.e_cl) with
               | Some c => Some (if Ascii.eqb c newline then " "%char else c)
               | None => None
               end) /\
    (forall n, String.get n a =
               match String.get n (summary Samples.e_cl) with
               | Some c => Some (if Ascii.eqb c newline then " "%char else c)
               | None => None
               end) /\
    contains newline t = false /\ contains newline a = false /\
    String.length t = String.length (title Samples.e_cl) /\
    String.length a = String.length (summary Samples.e_cl) /\
    (contains newline (title Samples.e_cl) = false -> t = title Samples.e_cl) /\
    (contains newline (summary Samples.e_cl) = false -> a = summary Samples.e_cl).
Proof.
  apply (X13_text_fields_single_line Samples.e_cl fallback_pair
           (random_choice (draw Samples.w_first 0))).
  reflexivity.
Defined.

Example newline_becomes_space :
  replace_char newline " " ("Deep" ++ nl ++ "Learning") = "Deep Learning".
Proof. reflexivity. Qed.

(** X14. The authors of a built record are the first five names of the
    entry, in order, or all of them when there are five or fewer. *)
Theorem X14_authors_at_most_five (r : entry) (ai_res : json) (g : string)
        (obj : json) :
  paper_obj r ai_res g = Ok obj ->
  exists names,
    get_path ["authors"] obj = Some (JArr (map JStr names)) /\
    List.length names = Nat.min 5 (List.length (authors r)) /\
    (exists dropped, authors r = (names ++ dropped)%list) /\
    ((List.length (authors r) <= 5)%nat -> names = authors r).
Proof.
  intros H. exists (firstn 5 (authors r)).
  split; [paper_obj_inv H; reflexivity|].
  split; [apply length_firstn|].
  split.
  - exists (skipn 5 (authors r)). symmetry. apply firstn_skipn.
  - intros Hle. now apply firstn_all2.
Qed.

Lemma X14_authors_at_most_five_witness :
  exists names,
    get_path ["authors"] (Samples.built Samples.w_first 0 Samples.e_cl)
      = Some (JArr (map JStr names)) /\
    List.length names = Nat.min 5 (List.length (authors Samples.e_cl)) /\
    (exists dropped, authors Samples.e_cl = (names ++ dropped)%list) /\
    ((List.length (authors Samples.e_cl) <= 5)%nat -> names = authors Samples.e_cl).
Proof.
  apply (X14_authors_at_most_five Samples.e_cl fallback_pair
           (random_choice (draw Samples.w_first 0))).
  reflexivity.
Defined.

Lemma random_choice_in_palette (k : nat) : In (random_choice k) GRADIENTS.
Proof.
  unfold random_choice. apply nth_In.
  apply Nat.mod_upper_bound. discriminate.
Qed.

(** X15. Whatever the random draw, the cover gradient of a record built
    in a run is one of the six gradients of the palette. *)
Theorem X15_gradient_from_palette (w : World) (i : nat) (r : entry) (obj : json) :
  process_one w i r = Ok obj ->
  exists gradient,
    get_path ["coverGradient"] obj = Some (JStr gradient) /\
    In gradient GRADIENTS /\
    List.length GRADIENTS = 6%nat.
Proof.
  intros Hp. unfold process_one, bind in Hp.
  destruct (ai_process w i (title r) (summary r)) as [ai_res|]; [|discriminate].
  exists (random_choice (draw w i)).
  split; [paper_obj_inv Hp; reflexivity|].
  split; [apply random_choice_in_palette | reflexivity].
Qed.

Lemma X15_gradient_from_palette_witness :
  exists gradient,
    get_path ["coverGradient"] (Samples.built Samples.w_first 0 Samples.e_cl)
      = Some (JStr gradient) /\
    In gradient GRADIENTS /\
    List.length GRADIENTS = 6%nat.
Proof.
  apply (X15_gradient_from_palette Samples.w_first 0 Samples.e_cl). reflexivity.
Defined.

(** The keys of a record, in the order they are written. *)
Lemma paper_obj_keys (r : entry) (ai_res : json) (g : string) (obj : json) :
  paper_obj r ai_res g = Ok obj ->
  exists fields,
    obj = JObj fields /\
    map fst fields =
    ["id"; "orig_title"; "tags"; "userTags"; "coverGradient"; "summary";
     "abstract_zh"; "abstract_en"; "authors"; "affiliation"; "date"; "pdf_url";
     "likes"; "isLiked"; "collections"; "isCollected"; "comments"; "qa";
     "expanded"; "isTranslated"].
Proof. intros H. paper_obj_inv H. eexists. split; reflexivity. Qed.

(** X16. When the chat service answers with an object, the values it
    gives under ["innovation"] and ["abstract_zh"] are stored as they are,
    whatever their JSON type (a [null] stays [null]; the default is for a
    missing key only), and nothing else of the answer enters the record: its
    keys are the same twenty, in the same order, for every answer. *)
Theorem X16_answer_values_stored_verbatim (w : World) (ids : list json)
        (raw : list entry) (i : nat) (r : entry)
        (fields : list (string * json)) :
  raw_papers_of w ids = Ok raw ->
  nth_error raw i = Some r ->
  chat w i (prompt (title r) (summary r)) = Ok (JObj fields) ->
  exists rec_fields,
    process_one w i r = Ok (JObj rec_fields) /\
    (forall v, lookup "innovation" fields = Some v ->
       get_path ["summary"; "innovation"] (JObj rec_fields) = Some v) /\
    (forall v, lookup "abstract_zh" fields = Some v ->
       get_path ["abstract_zh"] (JObj rec_fields) = Some v) /\
    map fst rec_fields =
    ["id"; "orig_title"; "tags"; "userTags"; "coverGradient"; "summary";
     "abstract_zh"; "abstract_en"; "authors"; "affiliation"; "date"; "pdf_url";
     "likes"; "isLiked"; "collections"; "isCollected"; "comments"; "qa";
     "expanded"; "isTranslated"].
Proof.
  intros Hraw Hr Hchat.
  pose proof (emitted_has_category _ _ _ _ Hraw (nth_error_In _ _ Hr)) as Hcat.
  destruct (paper_obj_total r fields (random_choice (draw w i)) Hcat) as [rec Hrec].
  destruct (paper_obj_keys _ _ _ _ Hrec) as (rec_fields & -> & Hkeys).
  exists rec_fields. split.
  { unfold process_one, ai_process. rewrite Hchat. exact Hrec. }
  destruct (paper_obj_enrichment r _ _ _ Hrec) as [Hinn Habs].
  repeat split.
  - intros v Hv. now rewrite Hinn, Hv.
  - intros v Hv. now rewrite Habs, Hv.
  - exact Hkeys.
Qed.

Lemma X16_answer_values_stored_verbatim_witness :
  exists rec_fields,
    process_one Samples.w_null 0 Samples.e_cl = Ok (JObj rec_fields) /\
    (forall v, lookup "innovation" [("innovation", JNull)] = Some v ->
       get_path ["summary"; "innovation"] (JObj rec_fields) = Some v) /\
    (forall v, lookup "abstract_zh" [("innovation", JNull)] = Some v ->
       get_path ["abstract_zh"] (JObj rec_fields) = Some v) /\
    map fst rec_fields =
    ["id"; "orig_title"; "tags"; "userTags"; "coverGradient"; "summary";
     "abstract_zh"; "abstract_en"; "authors"; "affiliation"; "date"; "pdf_url";
     "likes"; "isLiked"; "collections"; "isCollected"; "comments"; "qa";
     "expanded"; "isTranslated"].
Proof.
  apply (X16_answer_values_stored_verbatim Samples.w_null []
           [Samples.e_cl] 0 Samples.e_cl [("innovation", JNull)]);
    reflexivity.
Defined.

Example null_innovation_is_kept :
  get_path ["summary"; "innovation"] (Samples.built Samples.w_null 0 Samples.e_cl)
    = Some JNull /\
  get_path ["abstract_zh"] (Samples.built Samples.w_null 0 Samples.e_cl)
    = Some (JStr "无翻译").
Proof. split; reflexivity. Qed.

Example query_value :
  query = "cat:cs.AI OR cat:cs.CL OR cat:cs.LG OR cat:cs.CV".
Proof. reflexivity. Qed.

Lemma civil_from_days_ranges (days : Z) :
  let '(y, m, d) := Datetime.civil_from_days days in
  1 <= m <= 12 /\ 1 <= d <= 31.
Proof.
  unfold Datetime.civil_from_days.
  destruct ((5 * _ + 2) / 153 <? 10) eqn:Hmp.
  - apply Z.ltb_lt in Hmp. Z.div_mod_to_equations; lia.
  - apply Z.ltb_ge in Hmp. Z.div_mod_to_equations; lia.
Qed.

(** From 1000-01-01 to 9999-12-31 the year has four digits. *)
Lemma civil_from_days_year (days : Z) :
  -354285 <= days < 2932897 ->
  let '(y, m, d) := Datetime.civil_from_days days in
  1000 <= y <= 9999.
Proof.
  intros Hd. unfold Datetime.civil_from_days.
  destruct ((5 * _ + 2) / 153 <? 10) eqn:Hmp;
    destruct (_ <=? 2) eqn:Hm;
    [apply Z.ltb_lt in Hmp | apply Z.ltb_lt in Hmp
    |apply Z.ltb_ge in Hmp | apply Z.ltb_ge in Hmp];
    [apply Z.leb_le in Hm | apply Z.leb_gt in Hm
    |apply Z.leb_le in Hm | apply Z.leb_gt in Hm];
    Z.div_mod_to_equations; lia.
Qed.

Lemma decimal_four_digits (y : Z) :
  1000 <= y <= 9999 ->
  Datetime.decimal y =
  Datetime.digit (y / 1000) ++ Datetime.digit (y / 100) ++
  Datetime.digit (y / 10) ++ Datetime.digit y.
Proof.
  intros Hy. unfold Datetime.decimal.
  assert (Hlog : 9 <= Z.log2 y).
  { change 9 with (Z.log2 1000). apply Z.log2_le_mono. lia. }
  destruct (Z.to_nat (Z.log2 y)) as [|[|[|fuel]]] eqn:Hfuel; try lia.
  cbn [Datetime.decimal_digits].
  assert (H1 : (y <? 10) = false) by (apply Z.ltb_ge; lia).
  assert (H2 : (y / 10 <? 10) = false)
    by (apply Z.ltb_ge; Z.div_mod_to_equations; lia).
  assert (H3 : (y / 10 / 10 <? 10) = false)
    by (apply Z.ltb_ge; Z.div_mod_to_equations; lia).
  assert (H4 : (y / 10 / 10 / 10 <? 10) = true)
    by (apply Z.ltb_lt; Z.div_mod_to_equations; lia).
  rewrite H1, H2, H3, H4.
  assert (E2 : y / 10 / 10 = y / 100) by (Z.div_mod_to_equations; lia).
  assert (E3 : y / 10 / 10 / 10 = y / 1000) by (Z.div_mod_to_equations; lia).
  rewrite E3, E2. reflexivity.
Qed.

(** X17. For an entry updated between 1000-01-01 and 9999-12-31 (UTC), the
    date of a built record is the ten characters YYYY-MM-DD of the UTC day
    of the update: the four digits of the year, a month from 01 to 12 and a
    day from 01 to 31, with dashes between; and it depends on that day
    only. *)
Theorem X17_date_is_a_calendar_day (r : entry) (ai_res : json) (g : string)
        (obj : json) :
  paper_obj r ai_res g = Ok obj ->
  -354285 * Datetime.us_per_day <= updated r < 2932897 * Datetime.us_per_day ->
  exists y m d date,
    Datetime.civil_from_days (updated r / Datetime.us_per_day) = (y, m, d) /\
    1000 <= y <= 9999 /\ 1 <= m <= 12 /\ 1 <= d <= 31 /\
    get_path ["date"] obj = Some (JStr date) /\
    date =
      Datetime.digit (y / 1000) ++ Datetime.digit (y / 100) ++
      Datetime.digit (y / 10) ++ Datetime.digit y ++ "-" ++
      Datetime.digit (m / 10) ++ Datetime.digit m ++ "-" ++
      Datetime.digit (d / 10) ++ Datetime.digit d /\
    String.length date = 10%nat /\
    (forall r', updated r' / Datetime.us_per_day = updated r / Datetime.us_per_day ->
       Datetime.strftime_ymd (updated r') = date).
Proof.
  intros H Ht.
  assert (Hdays : -354285 <= updated r / Datetime.us_per_day < 2932897).
  { unfold Datetime.us_per_day, Datetime.us_per_hour in *.
    Z.div_mod_to_equations. lia. }
  pose proof (civil_from_days_ranges (updated r / Datetime.us_per_day)) as Hmd.
  pose proof (civil_from_days_year _ Hdays) as Hy.
  destruct (Datetime.civil_from_days (updated r / Datetime.us_per_day))
    as [[y m] d] eqn:Hc.
  assert (Hfmt : Datetime.strftime_ymd (updated r) =
      Datetime.digit (y / 1000) ++ Datetime.digit (y / 100) ++
      Datetime.digit (y / 10) ++ Datetime.digit y ++ "-" ++
      Datetime.digit (m / 10) ++ Datetime.digit m ++ "-" ++
      Datetime.digit (d / 10) ++ Datetime.digit d).
  { unfold Datetime.strftime_ymd. rewrite Hc, (decimal_four_digits y Hy).
    reflexivity. }
  exists y, m, d, (Datetime.strftime_ymd (updated r)).
  split; [reflexivity|]. split; [exact Hy|].
  split; [tauto|]. split; [tauto|].
  split; [paper_obj_inv H; reflexivity|].
  split; [exact Hfmt|].
  split; [rewrite Hfmt; reflexivity|].
  intros r' Hday. unfold Datetime.strftime_ymd. now rewrite Hday.
Qed.

Lemma X17_date_is_a_calendar_day_witness :
  exists y m d date,
    Datetime.civil_from_days (updated Samples.e_cl / Datetime.us_per_day)
      = (y, m, d) /\
    1000 <= y <= 9999 /\ 1 <= m <= 12 /\ 1 <= d <= 31 /\
    get_path ["date"] (Samples.built Samples.w_first 0 Samples.e_cl)
      = Some (JStr date) /\
    date =
      Datetime.digit (y / 1000) ++ Datetime.digit (y / 100) ++
      Datetime.digit (y / 10) ++ Datetime.digit y ++ "-" ++
      Datetime.digit (m / 10) ++ Datetime.digit m ++ "-" ++
      Datetime.digit (d / 10) ++ Datetime.digit d /\
    String.length date = 10%nat /\
    (forall r', updated r' / Datetime.us_per_day
                = updated Samples.e_cl / Datetime.us_per_day ->
       Datetime.strftime_ymd (updated r') = date).
Proof.
  apply (X17_date_is_a_calendar_day Samples.e_cl fallback_pair
           (random_choice (draw Samples.w_first 0))).
  - reflexivity.
  - split; vm_compute; [discriminate | reflexivity].
Defined.

Example date_of_e_cl :
  get_path ["date"] (Samples.built Samples.w_first 0 Samples.e_cl)
  = Some (JStr "2024-01-01").
Proof. reflexivity. Qed.
